(** * TikTok bio checker: a shallow embedding of [api/check-tiktok-bio.js]

    The development goes bottom-up through what the source file depends
    on: JavaScript strings and values, the regular expressions and the
    built-ins the program calls ([exec], [replace], [trim], [includes],
    [JSON.parse], [Object.keys]), then the program's own functions
    [findUserInSigiState], [extractBioFromHtml], [scrapeTikTokBio],
    [checkTikTokBio] and [handler], and finally the properties.

    Modelling conventions:
    - a JavaScript string is the list of its UTF-16 code units;
    - an abrupt completion ([throw], [return]) is an explicit constructor;
    - the network, the timer and the clock are an explicit [World] that the
      asynchronous functions thread through; [await] is sequencing;
    - [console.log] and [console.error] are not modelled: the values they
      print are strings and numbers (the one exception, the template literal
      of [handler], is modelled by [templateThrows]). *)

From Stdlib Require Import String Ascii DecimalString.
From Stdlib Require Import NArith ZArith Bool Lia List.
Import ListNotations.

Set Implicit Arguments.
Set Warnings "-register-all".


(* ================================================================== *)
(** * JavaScript strings *)
(* ================================================================== *)

Definition codeUnit := N.
Definition jsstring := list codeUnit.

(** An ASCII literal of the source as a JavaScript string. *)
Definition str (s : string) : jsstring :=
  map N_of_ascii (list_ascii_of_string s).
Arguments str s%_string.

(** The double quote, which the literals below splice in. *)
Definition dq : jsstring := [34%N].

Fixpoint jsstring_eqb (a b : jsstring) : bool :=
  match a, b with
  | [], [] => true
  | x :: a', y :: b' => N.eqb x y && jsstring_eqb a' b'
  | _, _ => false
  end.

(** [startsWith pat s]: [pat] is a prefix of [s]. *)
Fixpoint startsWith (pat s : jsstring) : bool :=
  match pat, s with
  | [], _ => true
  | p :: pat', c :: s' => N.eqb p c && startsWith pat' s'
  | _ :: _, [] => false
  end.

(** [String.prototype.includes] *)
Fixpoint includes (s pat : jsstring) : bool :=
  startsWith pat s ||
  match s with
  | [] => false
  | _ :: s' => includes s' pat
  end.

(** [String.prototype.indexOf], as the position of the first occurrence. *)
Fixpoint indexOf (pat s : jsstring) : option nat :=
  if startsWith pat s then Some O
  else match s with
       | [] => None
       | _ :: s' => option_map S (indexOf pat s')
       end.

(** [s.replace(pat, repl)] with a string pattern: the first occurrence only. *)
Fixpoint replaceFirst (pat repl s : jsstring) : jsstring :=
  if startsWith pat s then repl ++ skipn (length pat) s
  else match s with
       | [] => []
       | c :: s' => c :: replaceFirst pat repl s'
       end.

(** ECMAScript WhiteSpace and LineTerminator code units: what [trim] strips
    and what [\s] matches. *)
Definition isLineTerminator (c : codeUnit) : bool :=
  (N.eqb c 10 || N.eqb c 13 || N.eqb c 8232 || N.eqb c 8233)%N.

Definition isWhiteSpace (c : codeUnit) : bool :=
  (N.eqb c 9 || N.eqb c 11 || N.eqb c 12 || N.eqb c 32 || N.eqb c 160
   || N.eqb c 5760 || (N.leb 8192 c && N.leb c 8202) || N.eqb c 8239
   || N.eqb c 8287 || N.eqb c 12288 || N.eqb c 65279
   || isLineTerminator c)%N.

Fixpoint trimStart (s : jsstring) : jsstring :=
  match s with
  | c :: s' => if isWhiteSpace c then trimStart s' else s
  | [] => []
  end.

Definition trimEnd (s : jsstring) : jsstring := rev (trimStart (rev s)).

(** [String.prototype.trim] *)
Definition trim (s : jsstring) : jsstring := trimEnd (trimStart s).

(** Decimal rendering of a non-negative integer, as [ToString] gives it. *)
Definition decimal (n : N) : jsstring :=
  str (NilZero.string_of_uint (N.to_uint n)).

(* ================================================================== *)
(** * JavaScript values *)
(* ================================================================== *)

(** A Number is kept as the decimal literal it was read from,
    [(-1)^negative * digits * 10^exp10]; the program never computes with
    numbers, it only tests them for truthiness and passes them on. *)
Record number : Type := mkNumber
  { negative : bool; digits : N; exp10 : Z }.

Inductive value : Type :=
| VUndefined
| VNull
| VBool (b : bool)
| VNumber (n : number)
| VString (s : jsstring)
| VArray (elems : list value)
| VObject (props : list (jsstring * value)).

(** A literal denotes a double different from zero when its magnitude lies
    above [2^-1075], half of the least subnormal. *)
Definition roundsToNonZero (n : number) : bool :=
  match exp10 n with
  | Zneg p => N.ltb (10 ^ Npos p) (digits n * 2 ^ 1075)
  | _ => negb (N.eqb (digits n) 0)
  end.

(** ToBoolean *)
Definition ToBoolean (v : value) : bool :=
  match v with
  | VUndefined | VNull => false
  | VBool b => b
  | VNumber n => roundsToNonZero n
  | VString s => match s with [] => false | _ => true end
  | VArray _ | VObject _ => true
  end.

(** Errors the program can observe. [ErrError m] is [new Error(m)]; the
    others are thrown by built-ins, and [ErrReject] stands for whatever
    [fetch] or [response.text()] rejects with. *)
Inductive error : Type :=
| ErrError (message : jsstring)
| ErrType
| ErrSyntax
| ErrReject (cause : jsstring).

(** The result of evaluating an expression. *)
Inductive res (A : Type) : Type :=
| Ok (a : A)
| Err (e : error).
Arguments Ok {A} a.
Arguments Err {A} e.

(** The completion of a statement list inside a function body. *)
Inductive completion : Type :=
| Normal
| Return (v : value)
| Throw (e : error).

(** [s1; s2] *)
Definition seqc (c1 c2 : completion) : completion :=
  match c1 with
  | Normal => c2
  | _ => c1
  end.

(** [try { body } catch (e) { handler }] *)
Definition tryCatch (body : completion) (handler : error -> completion) : completion :=
  match body with
  | Throw e => handler e
  | _ => body
  end.

(** Evaluate an expression, then continue with its value. *)
Definition bindc {A} (r : res A) (k : A -> completion) : completion :=
  match r with
  | Ok a => k a
  | Err e => Throw e
  end.

Notation "c1 ;; c2" := (seqc c1 c2) (at level 61, right associativity).
Notation "'let*' x ':=' r 'in' k" := (bindc r (fun x => k))
  (at level 10, x name, r at level 100, k at level 200).

(** The value a call expression yields for a completed body. *)
Definition callResult (c : completion) : res value :=
  match c with
  | Normal => Ok VUndefined
  | Return v => Ok v
  | Throw e => Err e
  end.

(** ** Property access *)

(** An array index: the canonical decimal string of an integer below
    [2^32 - 1]. *)
Definition isDigit (c : codeUnit) : bool := (N.leb 48 c && N.leb c 57)%N.

Fixpoint digitsValue (acc : N) (s : jsstring) : N :=
  match s with
  | [] => acc
  | c :: s' => digitsValue (acc * 10 + (c - 48))%N s'
  end.

Definition arrayIndex (key : jsstring) : option N :=
  match key with
  | [] => None
  | c :: rest =>
      if forallb isDigit key && (negb (N.eqb c 48) || match rest with [] => true | _ => false end)
      then let n := digitsValue 0 key in
           if N.ltb n 4294967295 then Some n else None
      else None
  end.

Fixpoint lookup (key : jsstring) (props : list (jsstring * value)) : option value :=
  match props with
  | [] => None
  | (k, v) :: props' => if jsstring_eqb k key then Some v else lookup key props'
  end.

(** [v.key] and [v[key]] for the keys the program uses: own data properties
    of values that [JSON.parse] and the string built-ins produce. None of the
    names read by the program ([description], [UserModule], [users],
    [UserPage], [user], [signature], and keys listed by [Object.keys]) is
    supplied by a built-in prototype, so a missing own property reads as
    [undefined]. *)
Definition getProp (v : value) (key : jsstring) : res value :=
  match v with
  | VUndefined | VNull => Err ErrType
  | VBool _ | VNumber _ => Ok VUndefined
  | VString s =>
      match arrayIndex key with
      | Some i => match nth_error s (N.to_nat i) with
                  | Some c => Ok (VString [c])
                  | None => Ok VUndefined
                  end
      | None => Ok VUndefined
      end
  | VArray elems =>
      match arrayIndex key with
      | Some i => match nth_error elems (N.to_nat i) with
                  | Some e => Ok e
                  | None => Ok VUndefined
                  end
      | None => Ok VUndefined
      end
  | VObject props =>
      match lookup key props with
      | Some x => Ok x
      | None => Ok VUndefined
      end
  end.

(** Own property keys in the order of OrdinaryOwnPropertyKeys: array
    indices ascending, then the other keys in creation order. *)
Fixpoint insertSorted (n : N) (l : list N) : list N :=
  match l with
  | [] => [n]
  | m :: l' => if N.leb n m then n :: l else m :: insertSorted n l'
  end.

Fixpoint indexKeys (props : list (jsstring * value)) : list N :=
  match props with
  | [] => []
  | (k, _) :: props' =>
      match arrayIndex k with
      | Some n => insertSorted n (indexKeys props')
      | None => indexKeys props'
      end
  end.

Fixpoint nameKeys (props : list (jsstring * value)) : list jsstring :=
  match props with
  | [] => []
  | (k, _) :: props' =>
      match arrayIndex k with
      | Some _ => nameKeys props'
      | None => k :: nameKeys props'
      end
  end.

Definition indicesBelow (n : nat) : list jsstring :=
  map (fun i => decimal (N.of_nat i)) (seq 0 n).

(** [Object.keys] *)
Definition Object_keys (v : value) : res (list jsstring) :=
  match v with
  | VUndefined | VNull => Err ErrType
  | VBool _ | VNumber _ => Ok []
  | VString s => Ok (indicesBelow (length s))
  | VArray elems => Ok (indicesBelow (length elems))
  | VObject props => Ok (map decimal (indexKeys props) ++ nameKeys props)
  end.

(* ================================================================== *)
(** * Regular expressions *)
(* ================================================================== *)

(** The fragment of the pattern language the five regular expressions of
    the source are written in: pattern characters, [.], a negated
    one-character class, [\s], the quantifiers [*], [*?] and [+] on such an
    atom, one capture group, and concatenation. The matcher is the
    backtracking one of the language definition, in continuation-passing
    style: a continuation receives the rest of the input and the capture. *)

Inductive atom : Type :=
| Chr (c : codeUnit)
| Dot
| NotChr (c : codeUnit)
| Space.

Inductive regex : Type :=
| Empty
| Atom (a : atom)
| Star (a : atom)
| LazyStar (a : atom)
| Plus (a : atom)
| Group (r : regex)
| Seq (r1 r2 : regex).

Record flags : Type := mkFlags { ignoreCase : bool; dotAll : bool }.

(** Canonicalize of the [i] flag. Every character the patterns name is
    ASCII, and the language never folds a code unit above 127 onto one
    below 128, so upper-casing [a]-[z] decides every comparison exactly. *)
Definition canonicalize (fl : flags) (c : codeUnit) : codeUnit :=
  if ignoreCase fl && N.leb 97 c && N.leb c 122 then (c - 32)%N else c.

Definition atomMatches (fl : flags) (a : atom) (c : codeUnit) : bool :=
  match a with
  | Chr p => N.eqb (canonicalize fl p) (canonicalize fl c)
  | Dot => dotAll fl || negb (isLineTerminator c)
  | NotChr p => negb (N.eqb (canonicalize fl p) (canonicalize fl c))
  | Space => isWhiteSpace c
  end.

Record MatchState : Type := mkMatch { rest : jsstring; group1 : option jsstring }.

Definition Continuation := jsstring -> option jsstring -> option MatchState.

(** [a*]: as many as possible first, then fewer. *)
Fixpoint starGreedy (fl : flags) (a : atom) (k : Continuation)
    (x : jsstring) (cap : option jsstring) : option MatchState :=
  match x with
  | c :: x' =>
      if atomMatches fl a c then
        match starGreedy fl a k x' cap with
        | Some m => Some m
        | None => k x cap
        end
      else k x cap
  | [] => k x cap
  end.

(** [a*?]: as few as possible first, then more. *)
Fixpoint starLazy (fl : flags) (a : atom) (k : Continuation)
    (x : jsstring) (cap : option jsstring) : option MatchState :=
  match k x cap with
  | Some m => Some m
  | None =>
      match x with
      | c :: x' => if atomMatches fl a c then starLazy fl a k x' cap else None
      | [] => None
      end
  end.

Fixpoint matcher (fl : flags) (r : regex) (k : Continuation)
    (x : jsstring) (cap : option jsstring) : option MatchState :=
  match r with
  | Empty => k x cap
  | Atom a =>
      match x with
      | c :: x' => if atomMatches fl a c then k x' cap else None
      | [] => None
      end
  | Star a => starGreedy fl a k x cap
  | LazyStar a => starLazy fl a k x cap
  | Plus a =>
      match x with
      | c :: x' => if atomMatches fl a c then starGreedy fl a k x' cap else None
      | [] => None
      end
  | Group r' =>
      matcher fl r'
        (fun y _ => k y (Some (firstn (length x - length y) x))) x cap
  | Seq r1 r2 => matcher fl r1 (matcher fl r2 k) x cap
  end.

Definition accept : Continuation := fun y cap => Some (mkMatch y cap).

(** A match anchored at the head of [x]. *)
Definition matchHere (fl : flags) (r : regex) (x : jsstring) : option MatchState :=
  matcher fl r accept x None.

(** [RegExp.prototype.exec] on a fresh regular expression ([lastIndex] 0):
    the leftmost match, trying every start position in turn. *)
Fixpoint exec (fl : flags) (r : regex) (x : jsstring) : option MatchState :=
  match matchHere fl r x with
  | Some m => Some m
  | None =>
      match x with
      | _ :: x' => exec fl r x'
      | [] => None
      end
  end.

(** [x.replace(r, '')] for a global [r]: every match, left to right, is
    deleted. [skip] counts the code units of the current match still to
    drop; an empty match deletes nothing and the scan moves on. *)
Fixpoint removeMatches (fl : flags) (r : regex) (skip : nat) (x : jsstring) : jsstring :=
  match x with
  | [] => []
  | c :: x' =>
      match skip with
      | S n => removeMatches fl r n x'
      | O =>
          match matchHere fl r x with
          | Some m =>
              match length x - length (rest m) with
              | S n => removeMatches fl r n x'
              | O => c :: removeMatches fl r 0 x'
              end
          | None => c :: removeMatches fl r 0 x'
          end
      end
  end.

(** A run of pattern characters, and the concatenation of pattern parts. *)
Definition lit (w : jsstring) : regex :=
  fold_right (fun c r => Seq (Atom (Chr c)) r) Empty w.

Definition cat (parts : list regex) : regex := fold_right Seq Empty parts.

Definition gt : codeUnit := 62%N.

(* ================================================================== *)
(** * JSON.parse *)
(* ================================================================== *)

Inductive token : Type :=
| TLBrace | TRBrace | TLBracket | TRBracket | TColon | TComma
| TString (s : jsstring)
| TNumber (n : number)
| TTrue | TFalse | TNull.

Definition isJsonSpace (c : codeUnit) : bool :=
  (N.eqb c 32 || N.eqb c 9 || N.eqb c 10 || N.eqb c 13)%N.

Definition punctuator (c : codeUnit) : option token :=
  if N.eqb c 123 then Some TLBrace
  else if N.eqb c 125 then Some TRBrace
  else if N.eqb c 91 then Some TLBracket
  else if N.eqb c 93 then Some TRBracket
  else if N.eqb c 58 then Some TColon
  else if N.eqb c 44 then Some TComma
  else None.

Definition hexValue (c : codeUnit) : option N :=
  if isDigit c then Some (c - 48)%N
  else if (N.leb 97 c && N.leb c 102)%N then Some (c - 87)%N
  else if (N.leb 65 c && N.leb c 70)%N then Some (c - 55)%N
  else None.

Definition hex4 (a b c d : codeUnit) : option codeUnit :=
  match hexValue a, hexValue b, hexValue c, hexValue d with
  | Some x, Some y, Some z, Some w => Some (((x * 16 + y) * 16 + z) * 16 + w)%N
  | _, _, _, _ => None
  end.

(** The character a single-character escape stands for. *)
Definition escapeChar (c : codeUnit) : option codeUnit :=
  if (N.eqb c 34 || N.eqb c 92 || N.eqb c 47)%N then Some c
  else if N.eqb c 98 then Some 8%N
  else if N.eqb c 102 then Some 12%N
  else if N.eqb c 110 then Some 10%N
  else if N.eqb c 114 then Some 13%N
  else if N.eqb c 116 then Some 9%N
  else None.

Definition isNumberChar (c : codeUnit) : bool :=
  (isDigit c || N.eqb c 43 || N.eqb c 45 || N.eqb c 46 || N.eqb c 101 || N.eqb c 69)%N.

Fixpoint spanDigits (s : jsstring) : jsstring * jsstring :=
  match s with
  | c :: s' =>
      if isDigit c then let (d, r) := spanDigits s' in (c :: d, r) else ([], s)
  | [] => ([], [])
  end.

(** The exponent part, [e], [e+] or [e-] and at least one digit, up to the
    end of the literal. *)
Definition exponentOf (s : jsstring) : option Z :=
  match s with
  | [] => Some 0%Z
  | e :: r =>
      if (N.eqb e 101 || N.eqb e 69)%N then
        let (minus, r1) :=
          match r with
          | c :: r' => if N.eqb c 45 then (true, r')
                       else if N.eqb c 43 then (false, r') else (false, r)
          | [] => (false, r)
          end in
        match spanDigits r1 with
        | ((_ :: _) as ds, []) =>
            let v := Z.of_N (digitsValue 0 ds) in
            Some (if minus then (- v)%Z else v)
        | _ => None
        end
      else None
  end.

(** A JSON number literal: an optional minus, an integer part without a
    leading zero, an optional fraction and an optional exponent. *)
Definition numberOfLiteral (s : jsstring) : option number :=
  let (neg, s1) :=
    match s with
    | c :: r => if N.eqb c 45 then (true, r) else (false, s)
    | [] => (false, s)
    end in
  match spanDigits s1 with
  | ([], _) => None
  | ((d :: more) as int, s2) =>
      if N.eqb d 48 && match more with [] => false | _ => true end then None
      else
        let fraction :=
          match s2 with
          | c :: r => if N.eqb c 46 then
                        match spanDigits r with
                        | ([], _) => None
                        | (f, s3) => Some (f, s3)
                        end
                      else Some ([], s2)
          | [] => Some ([], s2)
          end in
        match fraction with
        | None => None
        | Some (f, s3) =>
            match exponentOf s3 with
            | Some e => Some (mkNumber neg (digitsValue 0 (int ++ f))
                                       (e - Z.of_nat (length f)))
            | None => None
            end
        end
  end.

Fixpoint lex (s : jsstring) : option (list token) :=
  match s with
  | [] => Some []
  | c :: r =>
      if isJsonSpace c then lex r
      else match punctuator c with
           | Some t => option_map (cons t) (lex r)
           | None =>
               if N.eqb c 34 then lexString [] r
               else if isDigit c || N.eqb c 45 then lexNumber [c] r
               else if N.eqb c 116 then
                 match r with
                 | c1 :: c2 :: c3 :: r' =>
                     if jsstring_eqb [c1; c2; c3] (str "rue")
                     then option_map (cons TTrue) (lex r') else None
                 | _ => None
                 end
               else if N.eqb c 102 then
                 match r with
                 | c1 :: c2 :: c3 :: c4 :: r' =>
                     if jsstring_eqb [c1; c2; c3; c4] (str "alse")
                     then option_map (cons TFalse) (lex r') else None
                 | _ => None
                 end
               else if N.eqb c 110 then
                 match r with
                 | c1 :: c2 :: c3 :: r' =>
                     if jsstring_eqb [c1; c2; c3] (str "ull")
                     then option_map (cons TNull) (lex r') else None
                 | _ => None
                 end
               else None
           end
  end
with lexString (acc : jsstring) (s : jsstring) : option (list token) :=
  match s with
  | [] => None
  | c :: r =>
      if N.eqb c 34 then option_map (cons (TString (rev acc))) (lex r)
      else if N.eqb c 92 then
        match r with
        | [] => None
        | e :: r' =>
            if N.eqb e 117 then
              match r' with
              | h1 :: h2 :: h3 :: h4 :: r'' =>
                  match hex4 h1 h2 h3 h4 with
                  | Some u => lexString (u :: acc) r''
                  | None => None
                  end
              | _ => None
              end
            else match escapeChar e with
                 | Some u => lexString (u :: acc) r'
                 | None => None
                 end
        end
      else if N.ltb c 32 then None
      else lexString (c :: acc) r
  end
with lexNumber (acc : jsstring) (s : jsstring) : option (list token) :=
  match s with
  | [] => option_map (fun n => [TNumber n]) (numberOfLiteral (rev acc))
  | c :: r =>
      if isNumberChar c then lexNumber (c :: acc) r
      else match numberOfLiteral (rev acc) with
           | None => None
           | Some n =>
               if isJsonSpace c then option_map (cons (TNumber n)) (lex r)
               else match punctuator c with
                    | Some t => option_map (fun ts => TNumber n :: t :: ts) (lex r)
                    | None => None
                    end
           end
  end.

(** Defining a property: an existing key keeps its place and takes the new
    value, a new key goes last. *)
Fixpoint setProp (key : jsstring) (v : value) (props : list (jsstring * value))
    : list (jsstring * value) :=
  match props with
  | [] => [(key, v)]
  | (k, x) :: props' =>
      if jsstring_eqb k key then (k, v) :: props'
      else (k, x) :: setProp key v props'
  end.

(** The containers still open around the value being read. *)
Inductive frame : Type :=
| InArray (done : list value)
| InObject (props : list (jsstring * value)) (key : jsstring).

Fixpoint parseValue (stack : list frame) (ts : list token) : option value :=
  match ts with
  | [] => None
  | t :: r =>
      match t with
      | TString s => parseAfter (VString s) stack r
      | TNumber n => parseAfter (VNumber n) stack r
      | TTrue => parseAfter (VBool true) stack r
      | TFalse => parseAfter (VBool false) stack r
      | TNull => parseAfter VNull stack r
      | TLBracket =>
          match r with
          | TRBracket :: r' => parseAfter (VArray []) stack r'
          | _ => parseValue (InArray [] :: stack) r
          end
      | TLBrace =>
          match r with
          | TRBrace :: r' => parseAfter (VObject []) stack r'
          | TString k :: TColon :: r' => parseValue (InObject [] k :: stack) r'
          | _ => None
          end
      | _ => None
      end
  end
with parseAfter (v : value) (stack : list frame) (ts : list token) : option value :=
  match stack with
  | [] => match ts with [] => Some v | _ => None end
  | InArray done :: stack' =>
      match ts with
      | TComma :: r => parseValue (InArray (v :: done) :: stack') r
      | TRBracket :: r => parseAfter (VArray (rev (v :: done))) stack' r
      | _ => None
      end
  | InObject props key :: stack' =>
      match ts with
      | TComma :: TString k :: TColon :: r =>
          parseValue (InObject (setProp key v props) k :: stack') r
      | TRBrace :: r => parseAfter (VObject (setProp key v props)) stack' r
      | _ => None
      end
  end.

(** [JSON.parse(text)]: a SyntaxError unless [text] is one JSON value. *)
Definition JSON_parse (text : jsstring) : res value :=
  match lex text with
  | Some ts =>
      match parseValue [] ts with
      | Some v => Ok v
      | None => Err ErrSyntax
      end
  | None => Err ErrSyntax
  end.

(* ================================================================== *)
(** * The program *)
(* ================================================================== *)

(** ** Expression helpers *)

(** [o.key] where [o] is itself an expression. *)
Definition member (o : res value) (key : jsstring) : res value :=
  match o with
  | Ok v => getProp v key
  | Err e => Err e
  end.

(** [a && b]: [b] is evaluated only when [a] is truthy. *)
Definition andAlso (a b : res value) : res value :=
  match a with
  | Ok v => if ToBoolean v then b else Ok v
  | Err e => Err e
  end.

(** [match[1]] handed to a function that expects a string: a group that
    did not take part reads [undefined]. *)
Definition textOf (g : option jsstring) : jsstring :=
  match g with
  | Some s => s
  | None => str "undefined"
  end.

(** [match[1]] as a value. *)
Definition capture (m : MatchState) : value :=
  match group1 m with
  | Some s => VString s
  | None => VUndefined
  end.

(** ** The regular expressions of [extractBioFromHtml] *)

(** [jsonLdPattern], flags [g] and [s]: the opening tag text, [[^>]*], [>],
    the group [(.*?)], the closing tag. *)
Definition jsonLdOpen : jsstring :=
  str "<script type=" ++ dq ++ str "application/ld+json" ++ dq.
Definition jsonLdClose : jsstring := str "</script>".
Definition jsonLdPattern : regex :=
  cat [lit jsonLdOpen; Star (NotChr gt); lit [gt];
       Group (LazyStar Dot); lit jsonLdClose].
Definition jsonLdFlags : flags := mkFlags false true.

(** [metaDescPattern], flag [i]: [<meta], [\s+], the name attribute, [\s+],
    the content attribute whose value up to the next double quote is the
    group, the double quote, [[^>]*], [>]. *)
Definition metaDescPattern : regex :=
  cat [lit (str "<meta"); Plus Space;
       lit (str "name=" ++ dq ++ str "description" ++ dq); Plus Space;
       lit (str "content=" ++ dq); Group (Star (NotChr 34%N)); lit dq;
       Star (NotChr gt); lit [gt]].
Definition metaDescFlags : flags := mkFlags true false.

(** [sigiPattern], flag [s]: the assignment target, [\s*], [=], [\s*], the
    group [({.*?})], [;]. *)
Definition sigiPattern : regex :=
  cat [lit (str "window['SIGI_STATE']"); Star Space; lit (str "="); Star Space;
       Group (cat [lit (str "{"); LazyStar Dot; lit (str "}")]); lit (str ";")].
Definition sigiFlags : flags := mkFlags false true.

(** [bioElementPattern], flag [s]: [<div], [[^>]*], the data-e2e attribute,
    [[^>]*], [>], the group [(.*?)], the closing tag. *)
Definition bioElementPattern : regex :=
  cat [lit (str "<div"); Star (NotChr gt);
       lit (str "data-e2e=" ++ dq ++ str "user-bio" ++ dq); Star (NotChr gt);
       lit [gt]; Group (LazyStar Dot); lit (str "</div>")].
Definition bioElementFlags : flags := mkFlags false true.

(** The tag pattern of the [replace] call, flag [g]: [<], [[^>]*], [>]. *)
Definition tagPattern : regex := cat [lit (str "<"); Star (NotChr gt); lit [gt]].
Definition tagFlags : flags := mkFlags false false.

(** ** [findUserInSigiState] *)

Definition findUserInSigiState (sigiState : value) : completion :=
  tryCatch
    ((let* c := andAlso (member (Ok sigiState) (str "UserModule"))
                        (member (member (Ok sigiState) (str "UserModule")) (str "users")) in
      if ToBoolean c then
        let* users := member (member (Ok sigiState) (str "UserModule")) (str "users") in
        let* userKeys := Object_keys users in
        match userKeys with
        | first :: _ => let* user := getProp users first in Return user
        | [] => Normal
        end
      else Normal) ;;
     (let* c := andAlso (member (Ok sigiState) (str "UserPage"))
                        (member (member (Ok sigiState) (str "UserPage")) (str "user")) in
      if ToBoolean c then
        let* user := member (member (Ok sigiState) (str "UserPage")) (str "user") in
        Return user
      else Normal) ;;
     Return VNull)
    (fun _ => Return VNull).

(** ** [extractBioFromHtml]

    The body is the sequence of its four pattern blocks followed by
    [return null]; each block is named after its comment in the source. *)

(** Pattern 1: JSON-LD structured data *)
Definition viaJsonLd (html : jsstring) : completion :=
  match exec jsonLdFlags jsonLdPattern html with
  | Some m =>
      tryCatch
        (let* jsonData := JSON_parse (textOf (group1 m)) in
         let* description := getProp jsonData (str "description") in
         if ToBoolean description then Return description else Normal)
        (fun _ => Normal)
  | None => Normal
  end.

(** Pattern 2: Meta description *)
Definition viaMetaDescription (html : jsstring) : completion :=
  match exec metaDescFlags metaDescPattern html with
  | Some m => if ToBoolean (capture m) then Return (capture m) else Normal
  | None => Normal
  end.

(** Pattern 3: SIGI_STATE *)
Definition viaSigiState (html : jsstring) : completion :=
  match exec sigiFlags sigiPattern html with
  | Some m =>
      tryCatch
        (let* sigiState := JSON_parse (textOf (group1 m)) in
         let* userDetails := callResult (findUserInSigiState sigiState) in
         let* c := andAlso (Ok userDetails) (getProp userDetails (str "signature")) in
         if ToBoolean c then
           let* signature := getProp userDetails (str "signature") in
           Return signature
         else Normal)
        (fun _ => Normal)
  | None => Normal
  end.

(** Pattern 4: Direct bio element *)
Definition viaBioElement (html : jsstring) : completion :=
  match exec bioElementFlags bioElementPattern html with
  | Some m =>
      if ToBoolean (capture m) then
        let bioText := trim (removeMatches tagFlags tagPattern 0 (textOf (group1 m))) in
        if ToBoolean (VString bioText) then Return (VString bioText) else Normal
      else Normal
  | None => Normal
  end.

Definition extractBioFromHtml (html : jsstring) : completion :=
  viaJsonLd html ;;
  viaMetaDescription html ;;
  viaSigiState html ;;
  viaBioElement html ;;
  Return VNull.

(* ================================================================== *)
(** * The asynchronous part: network, timer, clock *)
(* ================================================================== *)

(** What [fetch] resolves to: [status], [statusText], and what [text()]
    settles to. [ok] is the success range of the Fetch standard. *)
Record Response : Type := mkResponse
  { status : N; statusText : jsstring; text : res jsstring }.

Definition ok (response : Response) : bool :=
  (N.leb 200 (status response) && N.leb (status response) 299)%N.

Inductive FetchOutcome : Type :=
| Resolved (response : Response)
| Rejected (e : error).

Record FetchInit : Type := mkInit
  { headers : list (jsstring * jsstring); method : jsstring }.

Inductive event : Type :=
| Fetch (url : jsstring) (init : FetchInit)
| Sleep (ms : N).

(** The environment of one request: [network n] is how the [n]-th [fetch]
    of the run settles, [fetched] counts the calls made so far, [trace]
    lists the effects in the order they happened, [clock] is what
    [new Date().toISOString()] reads. *)
Record World : Type := mkWorld
  { network : nat -> FetchOutcome;
    fetched : nat;
    trace : list event;
    clock : jsstring }.

Definition fetch (url : jsstring) (init : FetchInit) (w : World)
    : FetchOutcome * World :=
  (network w (fetched w),
   mkWorld (network w) (S (fetched w)) (trace w ++ [Fetch url init]) (clock w)).

(** [sleep(ms)], awaited. *)
Definition sleep (ms : N) (w : World) : World :=
  mkWorld (network w) (fetched w) (trace w ++ [Sleep ms]) (clock w).

(** ** [scrapeTikTokBio] *)

Definition browserHeaders : list (jsstring * jsstring) :=
  [ (str "User-Agent",
     str "Mozilla/5.0 (Windows NT 10.0; Win64; x64) AppleWebKit/537.36 (KHTML, like Gecko) Chrome/120.0.0.0 Safari/537.36");
    (str "Accept",
     str "text/html,application/xhtml+xml,application/xml;q=0.9,image/webp,image/apng,*/*;q=0.8");
    (str "Accept-Language", str "en-US,en;q=0.9");
    (str "Accept-Encoding", str "gzip, deflate, br");
    (str "Connection", str "keep-alive");
    (str "Upgrade-Insecure-Requests", str "1");
    (str "Sec-Fetch-Dest", str "document");
    (str "Sec-Fetch-Mode", str "navigate");
    (str "Sec-Fetch-Site", str "none");
    (str "Cache-Control", str "max-age=0");
    (str "DNT", str "1") ].

Definition profileUrl (username : jsstring) : jsstring :=
  str "https://www.tiktok.com/@" ++ username.

(** What [scrapeTikTokBio] makes of a settled [fetch]. *)
Definition classify (username : jsstring) (outcome : FetchOutcome) : res value :=
  match outcome with
  | Rejected e => Err e
  | Resolved response =>
      if negb (ok response) then
        if N.eqb (status response) 404 then
          Err (ErrError (str "TikTok user @" ++ username ++ str " not found"))
        else if N.eqb (status response) 403 then
          Err (ErrError (str "TikTok blocked request (403 Forbidden)"))
        else
          Err (ErrError (str "HTTP " ++ decimal (status response) ++ str ": "
                         ++ statusText response))
      else
        match text response with
        | Err e => Err e
        | Ok html => callResult (extractBioFromHtml html)
        end
  end.

Definition scrapeTikTokBio (username : jsstring) (w : World) : res value * World :=
  let url := profileUrl username in
  let (outcome, w1) := fetch url (mkInit browserHeaders (str "GET")) w in
  (classify username outcome, w1).

Section Program.

(** [String.prototype.toLowerCase]: the case mapping is a table of the
    language, shared by every call. *)
Variable toLowerCase : jsstring -> jsstring.

(** [v.toLowerCase()]: only a string has the method. *)
Definition toLowerCaseOf (v : value) : res jsstring :=
  match v with
  | VString s => Ok (toLowerCase s)
  | _ => Err ErrType
  end.

(** The test of [checkTikTokBio]:
    [bioText.toLowerCase().includes(code.toLowerCase())]. *)
Definition codeFound (bioText code : jsstring) : bool :=
  includes (toLowerCase bioText) (toLowerCase code).

(** ** [checkTikTokBio] *)

Definition maxRetries : N := 3.

(** One turn of the [for] loop with [attempt] bound: the [try] block, then
    the [catch] block on what it throws. *)
Definition attemptBody (username : jsstring) (code : value) (attempt : N)
    (w : World) : completion * World :=
  let (scraped, w1) := scrapeTikTokBio username w in
  let tried : completion * World :=
    match scraped with
    | Err e => (Throw e, w1)
    | Ok bioText =>
        if ToBoolean bioText then
          ((let* lowered := toLowerCaseOf bioText in
            let* needle := toLowerCaseOf code in
            Return (VBool (includes lowered needle))), w1)
        else if N.ltb attempt maxRetries then (Normal, sleep (2000 * attempt) w1)
        else (Normal, w1)
    end in
  match tried with
  | (Throw error, w2) =>
      if N.eqb attempt maxRetries then (Throw error, w2)
      else (Normal, sleep (1000 * attempt) w2)
  | _ => tried
  end.

(** [for (let attempt = 1; attempt <= maxRetries; attempt++)] over the
    values [attempt] takes. *)
Fixpoint forAttempts (username : jsstring) (code : value) (attempts : list N)
    (w : World) : completion * World :=
  match attempts with
  | [] => (Normal, w)
  | attempt :: later =>
      match attemptBody username code attempt w with
      | (Normal, w') => forAttempts username code later w'
      | stopped => stopped
      end
  end.

Definition attemptNumbers : list N :=
  map N.of_nat (seq 1 (N.to_nat maxRetries)).

Definition checkTikTokBio (username : jsstring) (code : value) (w : World)
    : completion * World :=
  match forAttempts username code attemptNumbers w with
  | (Normal, w') => (Return (VBool false), w')
  | stopped => stopped
  end.

(** ** [handler] *)

Record Request : Type := mkRequest { reqMethod : jsstring; reqBody : value }.

(** What the handler sends: [end()] or one of its four JSON bodies. *)
Inductive payload : Type :=
| NoBody
| MethodNotAllowed
| FieldsRequired
| Verdict (found : value) (username : jsstring) (code : value) (timestamp : jsstring)
| InternalError (e : error).

Record Reply : Type := mkReply
  { replyHeaders : list (jsstring * jsstring); statusCode : N; sent : payload }.

Definition corsHeaders : list (jsstring * jsstring) :=
  [ (str "Access-Control-Allow-Origin", str "*");
    (str "Access-Control-Allow-Methods", str "POST, OPTIONS");
    (str "Access-Control-Allow-Headers", str "Content-Type") ].

(** [username.replace('@', '').trim()] *)
Definition cleanUsernameOf (username : jsstring) : jsstring :=
  trim (replaceFirst (str "@") [] username).

Definition cleanUsername (username : value) : res jsstring :=
  match username with
  | VString s => Ok (cleanUsernameOf s)
  | _ => Err ErrType
  end.

(** Whether converting [v] to a string inside a template literal throws:
    a parsed object that has a [toString] entry of its own has nothing
    callable to convert it, and an array converts its elements. *)
Fixpoint templateThrows (v : value) : bool :=
  match v with
  | VArray elems => existsb templateThrows elems
  | VObject props =>
      match lookup (str "toString") props with
      | Some _ => true
      | None => false
      end
  | _ => false
  end.

Definition handler (req : Request) (w : World) : Reply * World :=
  if jsstring_eqb (reqMethod req) (str "OPTIONS") then
    (mkReply corsHeaders 200 NoBody, w)
  else if negb (jsstring_eqb (reqMethod req) (str "POST")) then
    (mkReply corsHeaders 405 MethodNotAllowed, w)
  else
    let failed (error : error) (w' : World) :=
      (mkReply corsHeaders 500 (InternalError error), w') in
    match getProp (reqBody req) (str "username"), getProp (reqBody req) (str "code") with
    | Ok username, Ok code =>
        if negb (ToBoolean username) || negb (ToBoolean code) then
          (mkReply corsHeaders 400 FieldsRequired, w)
        else
          match cleanUsername username with
          | Err e => failed e w
          | Ok clean =>
              if templateThrows code then failed ErrType w
              else
                match checkTikTokBio clean code w with
                | (Return bioContainsCode, w') =>
                    (mkReply corsHeaders 200
                       (Verdict bioContainsCode clean code (clock w')), w')
                | (Normal, w') =>
                    (mkReply corsHeaders 200
                       (Verdict VUndefined clean code (clock w')), w')
                | (Throw e, w') => failed e w'
                end
          end
    | Err e, _ => failed e w
    | _, Err e => failed e w
    end.

End Program.

(* ================================================================== *)
(** * Vocabulary of the properties *)
(* ================================================================== *)

(** A page laid out around one JSON-LD script element: [pre], the opening
    tag text, further attribute text [attrs], [>], the element content
    [body], the closing tag, [post]. *)
Definition jsonLdPage (pre attrs body post : jsstring) : jsstring :=
  pre ++ jsonLdOpen ++ attrs ++ gt :: body ++ jsonLdClose ++ post.

(** The element is the first one of the page: the opening tag text does not
    occur earlier, [attrs] holds no [>], and the closing tag does not occur
    inside [body]. *)
Definition firstJsonLdBlock (pre attrs body post : jsstring) : Prop :=
  indexOf jsonLdOpen (jsonLdPage pre attrs body post) = Some (length pre)
  /\ forallb (fun c => negb (N.eqb gt c)) attrs = true
  /\ indexOf jsonLdClose (body ++ jsonLdClose ++ post) = Some (length body).

(** The first [if] of [findUserInSigiState] finds no user: there is no
    truthy [UserModule.users], or it has no keys. *)
Definition NoUsersTable (sigiState : value) : Prop :=
  exists userModule,
    getProp sigiState (str "UserModule") = Ok userModule
    /\ (ToBoolean userModule = false
        \/ exists users,
             getProp userModule (str "users") = Ok users
             /\ (ToBoolean users = false \/ Object_keys users = Ok [])).

(** The two places a user record is looked for, in the order they are
    tried: the entry under the first key of [UserModule.users], and only
    when that table yields nothing, [UserPage.user]. *)
Inductive SelectedUser (sigiState : value) : value -> Prop :=
| FirstOfUsersTable (userModule users user : value)
    (first : jsstring) (others : list jsstring) :
    getProp sigiState (str "UserModule") = Ok userModule ->
    ToBoolean userModule = true ->
    getProp userModule (str "users") = Ok users ->
    ToBoolean users = true ->
    Object_keys users = Ok (first :: others) ->
    getProp users first = Ok user ->
    SelectedUser sigiState user
| UserOfUserPage (userPage user : value) :
    NoUsersTable sigiState ->
    getProp sigiState (str "UserPage") = Ok userPage ->
    ToBoolean userPage = true ->
    getProp userPage (str "user") = Ok user ->
    ToBoolean user = true ->
    SelectedUser sigiState user.

(** The request [scrapeTikTokBio] sends, and the world after sending it. *)
Definition profileRequest (username : jsstring) : event :=
  Fetch (profileUrl username) (mkInit browserHeaders (str "GET")).

Definition fetchedOnce (username : jsstring) (w : World) : World :=
  mkWorld (network w) (S (fetched w)) (trace w ++ [profileRequest username]) (clock w).

(* ================================================================== *)
(** * Example inputs *)
(* ================================================================== *)


Definition quoted (s : jsstring) : jsstring := dq ++ s ++ dq.

(** The JSON text of an object with one string member. *)
Definition jsonMember (key val : jsstring) : jsstring :=
  str "{" ++ quoted key ++ str ":" ++ quoted val ++ str "}".

Definition metaTag (content : jsstring) : jsstring :=
  str "<meta name=" ++ quoted (str "description")
  ++ str " content=" ++ quoted content ++ str ">".

Definition coffeeBody : jsstring := jsonMember (str "description") (str "Coffee lover").
Definition emptyDescriptionBody : jsstring := jsonMember (str "description") [].

(** One JSON-LD block with a description, followed by a meta description. *)
Definition coffeePage : jsstring :=
  jsonLdPage (str "<html><head>") (str " id=ld") coffeeBody
    (metaTag (str "Official page") ++ str "</head></html>").

(** Two JSON-LD blocks: an empty object, then one with a description. *)
Definition twoBlockPage : jsstring :=
  jsonLdPage (jsonLdPage [] [] (str "{}") []) [] coffeeBody [].

(** Example texts spell the double quote as a single quote. *)
Definition json (s : string) : jsstring :=
  map (fun c => if N.eqb c 39 then 34%N else c) (str s).
Arguments json s%_string.

Definition sigiPage (blob : jsstring) : jsstring :=
  str "<html><script>window['SIGI_STATE'] = " ++ blob ++ str ";</script></html>".

Definition brokenPage : jsstring :=
  jsonLdPage [] [] (str "{oops") (sigiPage (str "{not json}")).


(** [toLowerCase] on ASCII text, for the examples. *)
Definition asciiLowerCase (s : jsstring) : jsstring :=
  map (fun c => if (N.leb 65 c && N.leb c 90)%bool then (c + 32)%N else c) s.

(** Worlds for the examples: every request answered 404; every request
    answered with a page that has no bio; two rejected requests and then a
    page with a bio. *)
Definition startWorld (network : nat -> FetchOutcome) : World :=
  mkWorld network 0 [] (str "2024-01-01T00:00:00.000Z").

Definition notFoundWorld : World :=
  startWorld (fun _ => Resolved (mkResponse 404 (str "Not Found") (Ok []))).

Definition loginWallWorld : World :=
  startWorld (fun _ => Resolved (mkResponse 200 (str "OK")
                                   (Ok (str "<html><body>Log in</body></html>")))).

Definition flakyWorld : World :=
  startWorld (fun n =>
    match n with
    | 0 | 1 => Rejected (ErrReject (str "fetch failed"))
    | _ => Resolved (mkResponse 200 (str "OK") (Ok (metaTag (str "Verify: ABC123 #brand"))))
    end).

Definition postRequest (username code : value) : Request :=
  mkRequest (str "POST") (VObject [(str "username", username); (str "code", code)]).


(* ================================================================== *)
(** * Vocabulary of the further properties *)
(* ================================================================== *)

(** A string as the [i] flag compares it. *)
Definition foldCase (fl : flags) (s : jsstring) : jsstring :=
  map (canonicalize fl) s.

(** The position of the leftmost match, which is where [exec] stops. *)
Fixpoint firstMatch (fl : flags) (r : regex) (x : jsstring) : option nat :=
  match matchHere fl r x with
  | Some _ => Some 0
  | None =>
      match x with
      | [] => None
      | _ :: x' => option_map S (firstMatch fl r x')
      end
  end.

(** The texts [metaDescPattern] spells out. *)
Definition metaOpen : jsstring := str "<meta".
Definition metaName : jsstring := str "name=" ++ dq ++ str "description" ++ dq.
Definition metaContentOpen : jsstring := str "content=" ++ dq.

(** A meta tag cut into the parts the pattern reads: the three texts as the
    page spells them, the two gaps, the attribute value, and what follows
    the closing quote up to the [>]. *)
Record MetaTag : Type := mkMetaTag
  { tagOpen : jsstring; gap1 : jsstring; nameAttr : jsstring; gap2 : jsstring;
    contentOpen : jsstring; content : jsstring; tagTail : jsstring }.

Definition metaTagText (t : MetaTag) : jsstring :=
  tagOpen t ++ gap1 t ++ nameAttr t ++ gap2 t ++ contentOpen t
  ++ content t ++ dq ++ tagTail t ++ [gt].

Definition sameFold (fl : flags) (a b : jsstring) : bool :=
  jsstring_eqb (foldCase fl a) (foldCase fl b).

(** White space, and at least one code unit of it. *)
Definition isBlank (s : jsstring) : bool :=
  match s with
  | [] => false
  | _ => forallb isWhiteSpace s
  end.

(** The tag is a description meta tag in any letter case: the texts agree
    with the pattern's up to case, the gaps are white space, the value holds
    no double quote and the tail no [>]. *)
Definition descriptionTag (t : MetaTag) : bool :=
  sameFold metaDescFlags (tagOpen t) metaOpen
  && isBlank (gap1 t)
  && sameFold metaDescFlags (nameAttr t) metaName
  && isBlank (gap2 t)
  && sameFold metaDescFlags (contentOpen t) metaContentOpen
  && forallb (fun c => negb (N.eqb 34 c)) (content t)
  && forallb (fun c => negb (N.eqb gt c)) (tagTail t).

(** An upper-case description tag after another meta tag. *)
Definition shoutedTag (value : jsstring) : MetaTag :=
  mkMetaTag (str "<META") [9; 10]%N (str "NAME=" ++ dq ++ str "Description" ++ dq)
    (str " ") (str "Content=" ++ dq) value (str " data-rh=true").

Definition charsetThenDescription (value : jsstring) : jsstring :=
  str "<head><meta charset=utf-8>" ++ metaTagText (shoutedTag value)
  ++ str "<div data-e2e=" ++ dq ++ str "user-bio" ++ dq ++ str ">Element bio</div>".

(** The texts [sigiPattern] spells out, and an assignment of a state blob:
    the target, white space, [=], white space, [{], the blob's inside and
    the closing brace with the semicolon. *)
Definition sigiTarget : jsstring := str "window['SIGI_STATE']".
Definition sigiClose : jsstring := str "};".

Definition sigiAssignment (ws1 ws2 inner : jsstring) : jsstring :=
  sigiTarget ++ ws1 ++ str "=" ++ ws2 ++ str "{" ++ inner ++ sigiClose.

(** The second [if] of [findUserInSigiState] finds no user. *)
Definition NoPageUser (sigiState : value) : Prop :=
  exists userPage,
    getProp sigiState (str "UserPage") = Ok userPage
    /\ (ToBoolean userPage = false
        \/ exists user,
             getProp userPage (str "user") = Ok user /\ ToBoolean user = false).

(** A state blob whose signature holds a closing brace and a semicolon. *)
Definition braceInSignaturePage : jsstring :=
  str "<script>" ++
  sigiAssignment [] (str " ")
    (json "'UserPage':{'user':{'signature':'a") ++
  json "b'}}};</script>".

(** A users table whose only entry is [null], beside a page user. *)
Definition nullEntryState : value :=
  VObject [(str "UserModule", VObject [(str "users", VObject [(str "ghost", VNull)])]);
           (str "UserPage",
            VObject [(str "user", VObject [(str "signature", VString (str "Page bio"))])])].

(** What follows the first [>] of a text, if it has one. *)
Fixpoint afterGt (y : jsstring) : option jsstring :=
  match y with
  | [] => None
  | c :: y' => if N.eqb gt c then Some y' else afterGt y'
  end.

(** The text holds a [<] with a [>] somewhere after it. *)
Fixpoint hasTag (s : jsstring) : bool :=
  match s with
  | [] => false
  | c :: s' => (N.eqb 60 c && existsb (N.eqb gt) s') || hasTag s'
  end.

(** Neither end of the text is white space. *)
Definition startsClean (s : jsstring) : bool :=
  match s with
  | [] => true
  | c :: _ => negb (isWhiteSpace c)
  end.

Definition trimmed (s : jsstring) : bool := startsClean s && startsClean (rev s).

(** A page whose bio element holds nested markup and an unclosed [<]. *)
Definition markupBioPage : jsstring :=
  str "<div id=x data-e2e=" ++ dq ++ str "user-bio" ++ dq
  ++ str ">  <b>Hi</b> <a href=/x>there</a> 1 < 2 </div>".

(** A value that has no [toLowerCase] method. *)
Definition notString (v : value) : Prop := forall s, v <> VString s.

(** Worlds for further examples: every page carries a JSON-LD description
    that is a number; every page carries a meta description; two rejected
    requests and then a page without a bio; two pages without a bio and
    then a rejected request. *)
Definition numberBioWorld : World :=
  startWorld (fun _ => Resolved (mkResponse 200 (str "OK")
                         (Ok (jsonLdPage [] [] (json "{'description':42}") [])))).

Definition bioWorld : World :=
  startWorld (fun _ => Resolved (mkResponse 200 (str "OK")
                         (Ok (metaTag (str "Verify: ABC123 #brand"))))).

Definition failsThenEmptyWorld : World :=
  startWorld (fun n =>
    match n with
    | 0 | 1 => Rejected (ErrReject (str "fetch failed"))
    | _ => Resolved (mkResponse 200 (str "OK") (Ok (str "<html></html>")))
    end).

Definition emptyThenFailsWorld : World :=
  startWorld (fun n =>
    match n with
    | 0 | 1 => Resolved (mkResponse 200 (str "OK") (Ok (str "<html></html>")))
    | _ => Rejected (ErrReject (str "fetch failed"))
    end).

(** The requests among some effects, and the time slept. *)
Definition requestsIn (evs : list event) : nat :=
  length (filter (fun e => match e with Fetch _ _ => true | Sleep _ => false end) evs).

Fixpoint sleptMs (evs : list event) : N :=
  match evs with
  | [] => 0
  | Sleep ms :: evs' => ms + sleptMs evs'
  | Fetch _ _ :: evs' => sleptMs evs'
  end.

(* ================================================================== *)
(** * Facts about the string built-ins *)
(* ================================================================== *)

Lemma startsWith_app (p t : jsstring) : startsWith p (p ++ t) = true.
Proof.
  induction p as [|c p IH]; simpl; [reflexivity|].
  now rewrite N.eqb_refl, IH.
Qed.

Lemma startsWith_inv (p s : jsstring) :
  startsWith p s = true -> s = p ++ skipn (length p) s.
Proof.
  revert s; induction p as [|c p IH]; intros s H; simpl in *; [reflexivity|].
  destruct s as [|d s]; [discriminate|].
  apply andb_true_iff in H as [Hc Hp].
  apply N.eqb_eq in Hc; subst d.
  simpl. f_equal. now apply IH.
Qed.

Lemma startsWith_iff (p s : jsstring) :
  startsWith p s = true <-> exists t, s = p ++ t.
Proof.
  split.
  - intros H. exists (skipn (length p) s). now apply startsWith_inv.
  - intros [t ->]. apply startsWith_app.
Qed.

Lemma includes_iff (s pat : jsstring) :
  includes s pat = true <-> exists pre post, s = pre ++ pat ++ post.
Proof.
  induction s as [|c s IH].
  - simpl. rewrite orb_false_r, startsWith_iff. split.
    + intros [t Ht]. now exists [], t.
    + intros [pre [post H]]. destruct pre; [now exists post|discriminate].
  - simpl. rewrite orb_true_iff, startsWith_iff, IH. split.
    + intros [[t Ht] | [pre [post H]]].
      * now exists [], t.
      * exists (c :: pre), post. simpl. now rewrite H.
    + intros [pre [post H]]. destruct pre as [|d pre].
      * left. now exists post.
      * right. injection H as _ H. now exists pre, post.
Qed.

Lemma indexOf_first (pat s : jsstring) (n : nat) :
  indexOf pat s = Some n ->
  (forall i, i < n -> startsWith pat (skipn i s) = false)
  /\ startsWith pat (skipn n s) = true.
Proof.
  revert n; induction s as [|c s IH]; intros n H; simpl in H.
  - destruct (startsWith pat []) eqn:E; [|discriminate].
    injection H as <-. split; [intros i Hi; lia | exact E].
  - destruct (startsWith pat (c :: s)) eqn:E.
    + injection H as <-. split; [intros i Hi; lia | exact E].
    + destruct (indexOf pat s) as [m|] eqn:Em; [|discriminate].
      injection H as <-. destruct (IH m eq_refl) as [Hlt Hat].
      split; [|exact Hat].
      intros [|i] Hi; [exact E|]. simpl. apply Hlt. lia.
Qed.

Lemma indexOf_intro (pat s : jsstring) (n : nat) :
  (forall i, i < n -> startsWith pat (skipn i s) = false) ->
  startsWith pat (skipn n s) = true ->
  indexOf pat s = Some n.
Proof.
  revert s; induction n as [|n IH]; intros s Hno Hat.
  - simpl in Hat. destruct s; simpl; now rewrite Hat.
  - assert (H0 : startsWith pat s = false) by (apply (Hno 0); lia).
    destruct s as [|c s].
    + simpl in Hat. congruence.
    + simpl. rewrite H0. rewrite (IH s); [reflexivity| |exact Hat].
      intros i Hi. apply (Hno (S i)). lia.
Qed.

Lemma skipn_app_le (A : Type) (n : nat) (a b : list A) :
  n <= length a -> skipn n (a ++ b) = skipn n a ++ b.
Proof.
  revert a; induction n as [|n IH]; intros a H; [reflexivity|].
  destruct a as [|x a]; simpl in *; [lia|]. apply IH. lia.
Qed.

(** Replacing the first [@] by nothing deletes it and leaves the rest. *)
Lemma replaceFirst_at (before after : jsstring) :
  forallb (fun c => negb (N.eqb 64 c)) before = true ->
  replaceFirst (str "@") [] (before ++ 64%N :: after) = before ++ after.
Proof.
  induction before as [|c before IH]; intros H; [reflexivity|].
  cbn [forallb] in H. apply andb_true_iff in H as [Hc H].
  apply negb_true_iff in Hc.
  change (replaceFirst (str "@") [] ((c :: before) ++ 64%N :: after))
    with (if N.eqb 64 c && true then skipn 1 ((c :: before) ++ 64%N :: after)
          else c :: replaceFirst (str "@") [] (before ++ 64%N :: after)).
  rewrite Hc. cbn [andb]. now rewrite (IH H).
Qed.

Lemma replaceFirst_absent (s : jsstring) :
  forallb (fun c => negb (N.eqb 64 c)) s = true ->
  replaceFirst (str "@") [] s = s.
Proof.
  induction s as [|c s IH]; intros H; [reflexivity|].
  cbn [forallb] in H. apply andb_true_iff in H as [Hc H].
  apply negb_true_iff in Hc.
  change (replaceFirst (str "@") [] (c :: s))
    with (if N.eqb 64 c && true then skipn 1 (c :: s)
          else c :: replaceFirst (str "@") [] s).
  rewrite Hc. cbn [andb]. now rewrite (IH H).
Qed.

Lemma jsstring_eqb_eq (a b : jsstring) : jsstring_eqb a b = true <-> a = b.
Proof.
  revert b; induction a as [|x a IH]; intros [|y b]; simpl; split;
    try discriminate; try reflexivity.
  - intros H. apply andb_true_iff in H as [Hx Ha].
    apply N.eqb_eq in Hx. apply IH in Ha. now subst.
  - intros H. injection H as -> ->. rewrite N.eqb_refl. now apply IH.
Qed.

Lemma forallb_pointwise (A : Type) (f g : A -> bool) (l : list A) :
  (forall a, f a = g a) -> forallb f l = forallb g l.
Proof. intros H. induction l as [|a l IH]; simpl; [reflexivity | now rewrite H, IH]. Qed.

Lemma skipn_length_app (A : Type) (a b : list A) : skipn (length a) (a ++ b) = b.
Proof. induction a; simpl; auto. Qed.

Lemma firstn_length_app (A : Type) (a b : list A) : firstn (length a) (a ++ b) = a.
Proof. induction a; simpl; [now destruct b | now f_equal]. Qed.

(* ================================================================== *)
(** * Facts about the matcher *)
(* ================================================================== *)

Section MatcherFacts.

Variable fl : flags.

Lemma matcher_seq (r1 r2 : regex) (k : Continuation) (x : jsstring) cap :
  matcher fl (Seq r1 r2) k x cap = matcher fl r1 (matcher fl r2 k) x cap.
Proof. reflexivity. Qed.

Lemma canonicalize_exact (c : codeUnit) :
  ignoreCase fl = false -> canonicalize fl c = c.
Proof. intros H. unfold canonicalize. now rewrite H. Qed.

(** Without the [i] flag a run of pattern characters is a prefix test. *)
Lemma matcher_lit (w : jsstring) (k : Continuation) (x : jsstring) cap :
  ignoreCase fl = false ->
  matcher fl (lit w) k x cap =
  if startsWith w x then k (skipn (length w) x) cap else None.
Proof.
  intros Hi. revert x.
  induction w as [|c w IH]; intros x; [reflexivity|].
  change (lit (c :: w)) with (Seq (Atom (Chr c)) (lit w)).
  rewrite matcher_seq. simpl.
  destruct x as [|d x]; [reflexivity|].
  rewrite !canonicalize_exact by assumption.
  destruct (N.eqb c d); simpl; [apply IH | reflexivity].
Qed.

(** A greedy star followed by something that succeeds right after the run
    takes the whole run. *)
Lemma starGreedy_run (a : atom) (k : Continuation) (run y : jsstring) cap m :
  forallb (atomMatches fl a) run = true ->
  match y with [] => true | c :: _ => negb (atomMatches fl a c) end = true ->
  k y cap = Some m ->
  starGreedy fl a k (run ++ y) cap = Some m.
Proof.
  intros Hrun Hy Hk. induction run as [|c run IH]; simpl.
  - destruct y as [|d y]; [exact Hk|].
    apply negb_true_iff in Hy. simpl. now rewrite Hy.
  - simpl in Hrun. apply andb_true_iff in Hrun as [Hc Hrun].
    rewrite Hc, (IH Hrun). reflexivity.
Qed.

(** A lazy star stops at the first position where what follows succeeds. *)
Lemma starLazy_first (a : atom) (k : Continuation) (run y : jsstring) cap m :
  forallb (atomMatches fl a) run = true ->
  (forall i, i < length run -> k (skipn i (run ++ y)) cap = None) ->
  k y cap = Some m ->
  starLazy fl a k (run ++ y) cap = Some m.
Proof.
  intros Hrun Hno Hk. induction run as [|c run IH].
  - simpl. destruct y; simpl; now rewrite Hk.
  - simpl in Hrun. apply andb_true_iff in Hrun as [Hc Hrun].
    assert (H0 : k (c :: run ++ y) cap = None) by (apply (Hno 0); simpl; lia).
    simpl. rewrite H0, Hc.
    apply IH; [exact Hrun|].
    intros i Hi. apply (Hno (S i)). simpl; lia.
Qed.

(** [exec] returns the match at the first position that has one. *)
Lemma exec_first (r : regex) (n : nat) (x : jsstring) m :
  (forall i, i < n -> matchHere fl r (skipn i x) = None) ->
  matchHere fl r (skipn n x) = Some m ->
  exec fl r x = Some m.
Proof.
  revert x; induction n as [|n IH]; intros x Hno Hat.
  - simpl in Hat. destruct x; simpl; now rewrite Hat.
  - destruct x as [|c x].
    + simpl in Hat. specialize (Hno 0 (Nat.lt_0_succ n)). simpl in Hno. congruence.
    + pose proof (Hno 0 (Nat.lt_0_succ n)) as H0. simpl in H0.
      simpl. rewrite H0.
      apply IH; [|exact Hat].
      intros i Hi. apply (Hno (S i)). lia.
Qed.

Lemma exec_none (r : regex) (x : jsstring) :
  (forall i, matchHere fl r (skipn i x) = None) -> exec fl r x = None.
Proof.
  induction x as [|c x IH]; intros H.
  - pose proof (H 0) as H0. simpl in *. now rewrite H0.
  - pose proof (H 0) as H0. simpl in H0. simpl. rewrite H0.
    apply IH. intros i. apply (H (S i)).
Qed.

Lemma exec_inv (r : regex) (x : jsstring) m :
  exec fl r x = Some m ->
  exists n, n <= length x
    /\ (forall i, i < n -> matchHere fl r (skipn i x) = None)
    /\ matchHere fl r (skipn n x) = Some m.
Proof.
  induction x as [|c x IH]; simpl; intros H.
  - exists 0. split; [lia|]. split; [intros i Hi; lia|].
    simpl. destruct (matchHere fl r []); [exact H | discriminate].
  - destruct (matchHere fl r (c :: x)) eqn:E.
    + exists 0. split; [lia|]. split; [intros i Hi; lia|].
      simpl. now rewrite E.
    + destruct (IH H) as (n & Hn & Hno & Hat).
      exists (S n). split; [lia|]. split; [|exact Hat].
      intros [|i] Hi; [exact E|]. simpl. apply Hno. lia.
Qed.

Lemma starGreedy_inv (a : atom) (k : Continuation) (x : jsstring) cap m :
  starGreedy fl a k x cap = Some m ->
  exists run y, x = run ++ y
    /\ forallb (atomMatches fl a) run = true
    /\ k y cap = Some m.
Proof.
  induction x as [|c x IH]; simpl; intros H.
  - now exists [], [].
  - destruct (atomMatches fl a c) eqn:Ec.
    + destruct (starGreedy fl a k x cap) as [m'|] eqn:E.
      * injection H as ->. destruct (IH eq_refl) as (run & y & -> & Hrun & Hk).
        exists (c :: run), y. simpl. now rewrite Ec.
      * now exists [], (c :: x).
    + now exists [], (c :: x).
Qed.

Lemma starLazy_inv (a : atom) (k : Continuation) (x : jsstring) cap m :
  starLazy fl a k x cap = Some m ->
  exists run y, x = run ++ y
    /\ forallb (atomMatches fl a) run = true
    /\ (forall i, i < length run -> k (skipn i x) cap = None)
    /\ k y cap = Some m.
Proof.
  assert (Hhere : forall z, k z cap = Some m ->
            exists run y, z = run ++ y
              /\ forallb (atomMatches fl a) run = true
              /\ (forall i, i < length run -> k (skipn i z) cap = None)
              /\ k y cap = Some m).
  { intros z Hz. exists [], z. split; [reflexivity|]. split; [reflexivity|].
    split; [intros i Hi; simpl in Hi; lia | exact Hz]. }
  induction x as [|c x IH]; simpl; intros H.
  - destruct (k [] cap) eqn:E; [|discriminate].
    injection H as ->. now apply Hhere.
  - destruct (k (c :: x) cap) eqn:E.
    + injection H as ->. now apply Hhere.
    + destruct (atomMatches fl a c) eqn:Ec; [|discriminate].
      destruct (IH H) as (run & y & -> & Hrun & Hno & Hk).
      exists (c :: run), y. split; [reflexivity|].
      split; [simpl; now rewrite Ec|]. split; [|exact Hk].
      intros [|i] Hi; [exact E|]. simpl. apply Hno. simpl in Hi. lia.
Qed.

(** A lazy star succeeds as soon as what follows succeeds somewhere in
    reach. *)
Lemma starLazy_some (a : atom) (k : Continuation) (run y : jsstring) cap :
  forallb (atomMatches fl a) run = true ->
  k y cap <> None ->
  starLazy fl a k (run ++ y) cap <> None.
Proof.
  intros Hrun Hk. induction run as [|c run IH]; simpl.
  - destruct y; simpl; destruct (k _ cap); congruence.
  - simpl in Hrun. apply andb_true_iff in Hrun as [Hc Hrun].
    destruct (k (c :: run ++ y) cap); [discriminate|].
    rewrite Hc. now apply IH.
Qed.

Lemma matcher_star (a : atom) (k : Continuation) (x : jsstring) cap :
  matcher fl (Star a) k x cap = starGreedy fl a k x cap.
Proof. reflexivity. Qed.

Lemma matcher_group_lazy (a : atom) (k : Continuation) (x : jsstring) cap :
  matcher fl (Group (LazyStar a)) k x cap =
  starLazy fl a (fun y _ => k y (Some (firstn (length x - length y) x))) x cap.
Proof. reflexivity. Qed.

End MatcherFacts.

(* ================================================================== *)
(** * The JSON-LD block that [extractBioFromHtml] reads *)
(* ================================================================== *)

Lemma jsonLdPattern_parts :
  jsonLdPattern =
  Seq (lit jsonLdOpen)
    (Seq (Star (NotChr gt))
       (Seq (lit [gt])
          (Seq (Group (LazyStar Dot)) (Seq (lit jsonLdClose) Empty)))).
Proof. reflexivity. Qed.

Lemma firstn_app_minus (A : Type) (a b : list A) :
  firstn (length (a ++ b) - length b) (a ++ b) = a.
Proof.
  rewrite length_app, Nat.add_sub. apply firstn_length_app.
Qed.

(** [exec] finds that element and captures its content. *)
Lemma jsonLd_exec_first_block (pre attrs body post : jsstring) :
  firstJsonLdBlock pre attrs body post ->
  exec jsonLdFlags jsonLdPattern (jsonLdPage pre attrs body post)
  = Some (mkMatch post (Some body)).
Proof.
  intros (Hopen & Hattrs & Hclose).
  destruct (indexOf_first _ _ Hopen) as [Hbefore Hat].
  destruct (indexOf_first _ _ Hclose) as [Hinside _].
  assert (Hi : ignoreCase jsonLdFlags = false) by reflexivity.
  rewrite jsonLdPattern_parts.
  apply exec_first with (n := length pre).
  - intros i Hlt. unfold matchHere.
    rewrite matcher_seq, matcher_lit by exact Hi.
    now rewrite (Hbefore i Hlt).
  - unfold matchHere, jsonLdPage in *.
    rewrite skipn_length_app.
    rewrite matcher_seq, matcher_lit by exact Hi.
    rewrite startsWith_app, skipn_length_app.
    rewrite matcher_seq.
    change (matcher jsonLdFlags (Star (NotChr gt)) ?k ?x ?c)
      with (starGreedy jsonLdFlags (NotChr gt) k x c).
    apply starGreedy_run.
    + rewrite <- Hattrs. apply forallb_pointwise. intros c. reflexivity.
    + reflexivity.
    + rewrite matcher_seq, matcher_lit by exact Hi.
      change (startsWith [gt] (gt :: ?x)) with (N.eqb gt gt && true).
      rewrite N.eqb_refl. simpl andb. cbv iota.
      change (skipn (length [gt]) (gt :: ?x)) with x.
      rewrite matcher_seq.
      change (matcher jsonLdFlags (Group (LazyStar Dot)) ?k ?x ?c)
        with (starLazy jsonLdFlags Dot
                (fun y _ => k y (Some (firstn (length x - length y) x))) x c).
      apply starLazy_first.
      * apply forallb_forall. intros c _. reflexivity.
      * intros i Hlt.
        rewrite matcher_seq, matcher_lit by exact Hi.
        now rewrite (Hinside i Hlt).
      * rewrite matcher_seq, matcher_lit by exact Hi.
        rewrite startsWith_app, skipn_length_app.
        simpl matcher. unfold accept.
        now rewrite firstn_app_minus.
Qed.

(** Conversely, wherever the pattern matches, the input is laid out as such
    an element, with its content captured. *)
Lemma jsonLd_matchHere_inv (x : jsstring) (m : MatchState) :
  matchHere jsonLdFlags jsonLdPattern x = Some m ->
  exists attrs body,
    x = jsonLdOpen ++ attrs ++ gt :: body ++ jsonLdClose ++ rest m
    /\ forallb (fun c => negb (N.eqb gt c)) attrs = true
    /\ indexOf jsonLdClose (body ++ jsonLdClose ++ rest m) = Some (length body)
    /\ group1 m = Some body.
Proof.
  assert (Hi : ignoreCase jsonLdFlags = false) by reflexivity.
  unfold matchHere. rewrite jsonLdPattern_parts.
  rewrite matcher_seq, matcher_lit by exact Hi.
  destruct (startsWith jsonLdOpen x) eqn:Hopen; [|discriminate].
  rewrite matcher_seq, matcher_star. intros H.
  destruct (starGreedy_inv _ _ _ _ _ H) as (attrs & y & Hx & Hattrs & Hk).
  rewrite matcher_seq, matcher_lit in Hk by exact Hi.
  destruct y as [|c z]; [discriminate|].
  change (startsWith [gt] (c :: z)) with (N.eqb gt c && true) in Hk.
  destruct (N.eqb gt c) eqn:Hc; [|discriminate].
  apply N.eqb_eq in Hc. subst c.
  cbn [andb] in Hk. change (skipn (length [gt]) (gt :: z)) with z in Hk.
  rewrite matcher_seq, matcher_group_lazy in Hk.
  destruct (starLazy_inv _ _ _ _ _ Hk) as (body & y2 & Hz & _ & Hno & Hk2).
  cbv beta in Hk2. rewrite matcher_seq, matcher_lit in Hk2 by exact Hi.
  destruct (startsWith jsonLdClose y2) eqn:Hclose; [|discriminate].
  apply startsWith_inv in Hclose. apply startsWith_inv in Hopen.
  remember (skipn (length jsonLdClose) y2) as post eqn:Hpost.
  remember (skipn (length jsonLdOpen) x) as afterOpen eqn:HafterOpen.
  clear Hpost HafterOpen.
  cbn [matcher] in Hk2. unfold accept in Hk2. injection Hk2 as <-.
  cbn [rest group1]. subst.
  exists attrs, body. split; [|split; [|split]].
  - reflexivity.
  - rewrite <- Hattrs. apply forallb_pointwise. intros c. reflexivity.
  - apply indexOf_intro.
    + intros i Hlt. specialize (Hno i Hlt). cbv beta in Hno.
      rewrite matcher_seq, matcher_lit in Hno by exact Hi.
      destruct (startsWith jsonLdClose (skipn i (body ++ jsonLdClose ++ post)));
        [discriminate | reflexivity].
    + rewrite skipn_length_app. apply startsWith_app.
  - now rewrite firstn_app_minus.
Qed.

(** An opening tag text matches as soon as a [>] and then a closing tag
    follow it somewhere. *)
Lemma jsonLd_matchHere_some (u w post : jsstring) :
  matchHere jsonLdFlags jsonLdPattern
    (jsonLdOpen ++ u ++ gt :: w ++ jsonLdClose ++ post) <> None.
Proof.
  assert (Hi : ignoreCase jsonLdFlags = false) by reflexivity.
  assert (Hsplit : exists run z v,
            u ++ gt :: w ++ jsonLdClose ++ post = run ++ gt :: z
            /\ forallb (atomMatches jsonLdFlags (NotChr gt)) run = true
            /\ z = v ++ jsonLdClose ++ post).
  { induction u as [|c u (run & z & v & E & Hrun & Hz)].
    - exists [], (w ++ jsonLdClose ++ post), w. now repeat split.
    - destruct (N.eqb gt c) eqn:Hc.
      + apply N.eqb_eq in Hc. subst c.
        exists [], (u ++ gt :: w ++ jsonLdClose ++ post), (u ++ gt :: w).
        repeat split. now rewrite <- app_assoc.
      + exists (c :: run), z, v. split; [|split; [|exact Hz]].
        * rewrite <- !app_comm_cons. f_equal. exact E.
        * cbn [forallb]. rewrite Hrun.
          change (atomMatches jsonLdFlags (NotChr gt) c) with (negb (N.eqb gt c)).
          now rewrite Hc. }
  destruct Hsplit as (run & z & v & E & Hrun & Hz).
  unfold matchHere. rewrite jsonLdPattern_parts.
  rewrite matcher_seq, matcher_lit by exact Hi.
  rewrite startsWith_app, skipn_length_app, E.
  rewrite matcher_seq, matcher_star.
  destruct (matcher jsonLdFlags
              (Seq (lit [gt]) (Seq (Group (LazyStar Dot)) (Seq (lit jsonLdClose) Empty)))
              accept (gt :: z) None) as [m|] eqn:Hk.
  - rewrite (@starGreedy_run jsonLdFlags (NotChr gt) _ run (gt :: z) None m Hrun eq_refl Hk).
    discriminate.
  - exfalso. revert Hk.
    rewrite matcher_seq, matcher_lit by exact Hi.
    change (startsWith [gt] (gt :: z)) with (N.eqb gt gt && true).
    rewrite N.eqb_refl. cbn [andb].
    change (skipn (length [gt]) (gt :: z)) with z.
    rewrite matcher_seq, matcher_group_lazy. subst z.
    apply starLazy_some.
    + apply forallb_forall. intros c _. reflexivity.
    + rewrite matcher_seq, matcher_lit by exact Hi.
      rewrite startsWith_app. discriminate.
Qed.

Lemma jsonLd_exec_inv (html : jsstring) (m : MatchState) :
  exec jsonLdFlags jsonLdPattern html = Some m ->
  exists pre attrs body,
    html = jsonLdPage pre attrs body (rest m)
    /\ firstJsonLdBlock pre attrs body (rest m)
    /\ group1 m = Some body.
Proof.
  intros H.
  destruct (exec_inv _ _ _ H) as (n & Hn & Hno & Hat).
  destruct (jsonLd_matchHere_inv _ Hat) as (attrs & body & Hx & Hattrs & Hclose & Hg).
  assert (Hlen : length (firstn n html) = n) by (apply firstn_length_le; exact Hn).
  assert (Hhtml : html = jsonLdPage (firstn n html) attrs body (rest m)).
  { unfold jsonLdPage. rewrite <- Hx. symmetry. apply firstn_skipn. }
  exists (firstn n html), attrs, body.
  split; [exact Hhtml|]. split; [|exact Hg].
  split; [|split; [exact Hattrs | exact Hclose]].
  rewrite <- Hhtml, Hlen. apply indexOf_intro.
  - intros i Hlt.
    destruct (startsWith jsonLdOpen (skipn i html)) eqn:Hearly; [|reflexivity].
    exfalso. apply startsWith_inv in Hearly.
    assert (Hi' : skipn i html
                  = skipn i (firstn n html ++ jsonLdOpen ++ attrs)
                    ++ gt :: body ++ jsonLdClose ++ rest m).
    { rewrite Hhtml at 1. unfold jsonLdPage.
      rewrite (app_assoc jsonLdOpen), (app_assoc (firstn n html)).
      apply skipn_app_le. rewrite !length_app, Hlen. lia. }
    assert (Hu : skipn (length jsonLdOpen) (skipn i html)
                 = skipn (length jsonLdOpen) (skipn i (firstn n html ++ jsonLdOpen ++ attrs))
                   ++ gt :: body ++ jsonLdClose ++ rest m).
    { rewrite Hi' at 1. apply skipn_app_le.
      rewrite length_skipn, !length_app, Hlen. lia. }
    rewrite Hu in Hearly.
    apply (@jsonLd_matchHere_some
             (skipn (length jsonLdOpen) (skipn i (firstn n html ++ jsonLdOpen ++ attrs)))
             body (rest m)).
    rewrite <- Hearly. apply Hno. exact Hlt.
  - rewrite Hx. apply startsWith_app.
Qed.

Lemma viaJsonLd_first_block (pre attrs body post : jsstring) :
  firstJsonLdBlock pre attrs body post ->
  viaJsonLd (jsonLdPage pre attrs body post) =
  tryCatch
    (let* jsonData := JSON_parse body in
     let* description := getProp jsonData (str "description") in
     if ToBoolean description then Return description else Normal)
    (fun _ => Normal).
Proof.
  intros Hb. unfold viaJsonLd.
  now rewrite (jsonLd_exec_first_block Hb).
Qed.

(* ================================================================== *)
(** * Facts about completions *)
(* ================================================================== *)

Lemma andAlso_truthy (v : value) (b : res value) :
  ToBoolean v = true -> andAlso (Ok v) b = b.
Proof. intros H. unfold andAlso. now rewrite H. Qed.

Lemma andAlso_falsy (v : value) (b : res value) :
  ToBoolean v = false -> andAlso (Ok v) b = Ok v.
Proof. intros H. unfold andAlso. now rewrite H. Qed.

Lemma seqc_ends_in_return (a b : completion) (v : value) :
  a ;; b ;; Return v <> Normal.
Proof. destruct a, b; discriminate. Qed.

(** [findUserInSigiState] returns on every input: whatever its [try] block
    throws, the [catch] block returns [null]. *)
Lemma findUserInSigiState_returns (sigiState : value) :
  exists user, findUserInSigiState sigiState = Return user.
Proof.
  unfold findUserInSigiState.
  match goal with |- exists _, tryCatch ?b _ = _ => destruct b as [|v|e] eqn:E end.
  - exfalso. exact (seqc_ends_in_return _ _ _ E).
  - simpl. eauto.
  - simpl. eauto.
Qed.

(** Each strategy block either completes normally or returns a truthy
    value; none throws. *)
Lemma viaJsonLd_settles (html : jsstring) :
  viaJsonLd html = Normal
  \/ exists v, viaJsonLd html = Return v /\ ToBoolean v = true.
Proof.
  unfold viaJsonLd.
  destruct (exec jsonLdFlags jsonLdPattern html) as [m|]; [|now left].
  destruct (JSON_parse (textOf (group1 m))) as [jsonData|e]; [|now left].
  cbn [bindc]. destruct (getProp jsonData (str "description")) as [d|e]; [|now left].
  cbn [bindc]. destruct (ToBoolean d) eqn:Td; [right | now left].
  exists d. now split.
Qed.

Lemma viaMetaDescription_settles (html : jsstring) :
  viaMetaDescription html = Normal
  \/ exists v, viaMetaDescription html = Return v /\ ToBoolean v = true.
Proof.
  unfold viaMetaDescription.
  destruct (exec metaDescFlags metaDescPattern html) as [m|]; [|now left].
  destruct (ToBoolean (capture m)) eqn:T; [right; eauto | now left].
Qed.

Lemma viaSigiState_settles (html : jsstring) :
  viaSigiState html = Normal
  \/ exists v, viaSigiState html = Return v /\ ToBoolean v = true.
Proof.
  unfold viaSigiState.
  destruct (exec sigiFlags sigiPattern html) as [m|]; [|now left].
  destruct (JSON_parse (textOf (group1 m))) as [sigiState|e]; [|now left].
  cbn [bindc]. destruct (findUserInSigiState_returns sigiState) as [u ->].
  cbn [callResult bindc].
  destruct (ToBoolean u) eqn:Tu.
  - rewrite (@andAlso_truthy _ _ Tu).
    destruct (getProp u (str "signature")) as [sg|e]; [|now left].
    cbn [bindc]. destruct (ToBoolean sg) eqn:Ts; [right | now left].
    exists sg. now split.
  - rewrite (@andAlso_falsy _ _ Tu). cbn [bindc]. rewrite Tu. now left.
Qed.

Lemma viaBioElement_settles (html : jsstring) :
  viaBioElement html = Normal
  \/ exists v, viaBioElement html = Return v /\ ToBoolean v = true.
Proof.
  unfold viaBioElement.
  destruct (exec bioElementFlags bioElementPattern html) as [m|]; [|now left].
  destruct (ToBoolean (capture m)); [|now left].
  destruct (ToBoolean (VString _)) eqn:T; [right; eauto | now left].
Qed.

(* ================================================================== *)
(** * The model at work on small inputs *)
(* ================================================================== *)

(** Keys that are array indices come first, in ascending order; a repeated
    key keeps its first place and its last value. *)
Example JSON_parse_key_order :
  match JSON_parse (json "{'b':1,'10':2,'9':[3],'b':null}") with
  | Ok v => Object_keys v
  | Err e => Err e
  end = Ok [str "9"; str "10"; str "b"].
Proof. vm_compute. reflexivity. Qed.

Example JSON_parse_rejects_trailing_comma : JSON_parse (json "[1,]") = Err ErrSyntax.
Proof. vm_compute. reflexivity. Qed.

Example JSON_parse_unicode_escape :
  JSON_parse (json "'\u0041\n'") = Ok (VString [65; 10]%N).
Proof. vm_compute. reflexivity. Qed.

(** A number so small that it reads as zero is falsy. *)
Example tiny_number_is_falsy :
  match JSON_parse (str "1e-400"), JSON_parse (str "1e-300") with
  | Ok tiny, Ok small => (ToBoolean tiny, ToBoolean small)
  | _, _ => (true, false)
  end = (false, true).
Proof. vm_compute. reflexivity. Qed.

(** The meta pattern ignores case and lets any white space separate the
    attributes. *)
Example meta_pattern_ignores_case :
  extractBioFromHtml
    (str "<META  NAME=" ++ quoted (str "Description") ++ [9; 10]%N
     ++ str "CONTENT=" ++ quoted (str "My bio") ++ str " lang=en>")
  = Return (VString (str "My bio")).
Proof. vm_compute. reflexivity. Qed.

(** The bio element is matched through its other attributes, and the tags
    inside it are stripped before trimming. *)
Example bio_element_is_stripped :
  extractBioFromHtml
    (str "<div class=a data-e2e=" ++ quoted (str "user-bio")
     ++ str " x> <b>hi</b> there <i></i></div>")
  = Return (VString (str "hi there")).
Proof. vm_compute. reflexivity. Qed.

(** The state blob ends at the first brace followed by a semicolon. *)
Example sigi_blob_is_lazy :
  option_map group1
    (exec sigiFlags sigiPattern (str "window['SIGI_STATE']={a};b};"))
  = Some (Some (str "{a}")).
Proof. vm_compute. reflexivity. Qed.

Example removeMatches_strips_tags :
  removeMatches tagFlags tagPattern 0 (str "a<b>c</b><d") = str "ac<d".
Proof. vm_compute. reflexivity. Qed.

(** The test folds case and nothing else: white space inside the bio still
    separates. *)
Example codeFound_folds_case :
  codeFound asciiLowerCase (str "Verify: ABC123 #brand") (str "abc123") = true.
Proof. vm_compute. reflexivity. Qed.

Example codeFound_keeps_white_space :
  codeFound asciiLowerCase (str "Verify: ABC 123") (str "abc123") = false.
Proof. vm_compute. reflexivity. Qed.

(* ================================================================== *)
(** * Properties of [extractBioFromHtml] *)
(* ================================================================== *)

(** C1 (as amended). When the first JSON-LD script block of the page
    parses and its [description] is truthy (for a string: not empty),
    [extractBioFromHtml] returns that description, whatever else the page
    holds before, inside the tag, or after the block. By [jsonLd_exec_inv]
    every page on which the pattern matches is laid out as [jsonLdPage]
    with a [firstJsonLdBlock]. *)
Theorem jsonLd_description_first
    (pre attrs body post : jsstring) (jsonData description : value) :
  firstJsonLdBlock pre attrs body post ->
  JSON_parse body = Ok jsonData ->
  getProp jsonData (str "description") = Ok description ->
  ToBoolean description = true ->
  extractBioFromHtml (jsonLdPage pre attrs body post) = Return description.
Proof.
  intros Hb Hp Hd Ht. unfold extractBioFromHtml.
  rewrite (viaJsonLd_first_block Hb), Hp.
  cbn [bindc tryCatch]. rewrite Hd. cbn [bindc]. rewrite Ht.
  reflexivity.
Qed.

Lemma jsonLd_description_first_witness :
  extractBioFromHtml coffeePage = Return (VString (str "Coffee lover")).
Proof.
  apply (@jsonLd_description_first (str "<html><head>") (str " id=ld") coffeeBody
           (metaTag (str "Official page") ++ str "</head></html>")
           (VObject [(str "description", VString (str "Coffee lover"))])).
  - repeat split; vm_compute; reflexivity.
  - vm_compute; reflexivity.
  - vm_compute; reflexivity.
  - reflexivity.
Defined.

(** C1 as stated fails twice over. A block whose description is the empty
    string is passed over, here in favour of the meta description; and a
    block that is not the first one of the page is never read, here leaving
    [null]. *)
Lemma jsonLd_description_not_always_returned :
  (JSON_parse emptyDescriptionBody = Ok (VObject [(str "description", VString [])])
   /\ extractBioFromHtml
        (jsonLdPage [] [] emptyDescriptionBody (metaTag (str "Official page")))
      = Return (VString (str "Official page")))
  /\
  (JSON_parse coffeeBody = Ok (VObject [(str "description", VString (str "Coffee lover"))])
   /\ twoBlockPage = jsonLdPage (jsonLdPage [] [] (str "{}") []) [] coffeeBody []
   /\ extractBioFromHtml twoBlockPage = Return VNull).
Proof. vm_compute. repeat split; reflexivity. Qed.



(** C3. [extractBioFromHtml] returns on every page and never throws: its
    result is [null] or a truthy value. [findUserInSigiState] returns on
    every parsed blob. A [JSON.parse] failure in the JSON-LD block or in the
    state blob leaves that strategy without a result. When none of the four
    strategies returns a bio the result is [null]. *)
Theorem extractBioFromHtml_never_throws (html : jsstring) :
  (exists v, extractBioFromHtml html = Return v /\ (v = VNull \/ ToBoolean v = true))
  /\ (forall sigiState, exists user, findUserInSigiState sigiState = Return user)
  /\ (forall m e, exec jsonLdFlags jsonLdPattern html = Some m ->
        JSON_parse (textOf (group1 m)) = Err e -> viaJsonLd html = Normal)
  /\ (forall m e, exec sigiFlags sigiPattern html = Some m ->
        JSON_parse (textOf (group1 m)) = Err e -> viaSigiState html = Normal)
  /\ (viaJsonLd html = Normal -> viaMetaDescription html = Normal ->
      viaSigiState html = Normal -> viaBioElement html = Normal ->
      extractBioFromHtml html = Return VNull).
Proof.
  split; [|split; [|split; [|split]]].
  - unfold extractBioFromHtml.
    destruct (viaJsonLd_settles html) as [-> | (v & -> & T)]; [|simpl; eauto].
    destruct (viaMetaDescription_settles html) as [-> | (v & -> & T)]; [|simpl; eauto].
    destruct (viaSigiState_settles html) as [-> | (v & -> & T)]; [|simpl; eauto].
    destruct (viaBioElement_settles html) as [-> | (v & -> & T)]; simpl; eauto.
  - apply findUserInSigiState_returns.
  - intros m e Hm He. unfold viaJsonLd. now rewrite Hm, He.
  - intros m e Hm He. unfold viaSigiState. now rewrite Hm, He.
  - intros H1 H2 H3 H4. unfold extractBioFromHtml.
    now rewrite H1, H2, H3, H4.
Qed.

(** A page whose JSON-LD block and state blob are both malformed JSON, and
    which has neither a meta description nor a bio element. *)
Lemma extractBioFromHtml_never_throws_witness :
  viaJsonLd brokenPage = Normal
  /\ viaSigiState brokenPage = Normal
  /\ extractBioFromHtml brokenPage = Return VNull.
Proof.
  destruct (extractBioFromHtml_never_throws brokenPage)
    as (_ & _ & Hld & Hsigi & Hnull).
  assert (H1 : viaJsonLd brokenPage = Normal).
  { apply (Hld (mkMatch (sigiPage (str "{not json}")) (Some (str "{oops"))) ErrSyntax);
      vm_compute; reflexivity. }
  assert (H3 : viaSigiState brokenPage = Normal).
  { apply (Hsigi (mkMatch (str "</script></html>") (Some (str "{not json}"))) ErrSyntax);
      vm_compute; reflexivity. }
  split; [exact H1|]. split; [exact H3|].
  apply Hnull; [exact H1 | vm_compute; reflexivity | exact H3 | vm_compute; reflexivity].
Defined.

(* ================================================================== *)
(** * The user record that [findUserInSigiState] selects *)
(* ================================================================== *)

Lemma findUserInSigiState_selected (sigiState user : value) :
  SelectedUser sigiState user -> findUserInSigiState sigiState = Return user.
Proof.
  intros [um users u first others Hum Tum Hus Tus Hk Hu
         | up u [um [Hum Hno]] Hup Tup Hu Tu];
    unfold findUserInSigiState, member.
  - rewrite Hum, (@andAlso_truthy _ _ Tum), Hus.
    cbn [bindc]. rewrite Tus, Hk. cbn [bindc]. rewrite Hu. reflexivity.
  - rewrite Hum, Hup, (@andAlso_truthy _ _ Tup), Hu.
    assert (Hpage : (let* c := Ok u in
                     if ToBoolean c then let* user := Ok u in Return user else Normal)
                    = Return u) by (cbn [bindc]; now rewrite Tu).
    rewrite Hpage.
    destruct Hno as [Fum | [users [Hus [Fus | Hk]]]].
    + rewrite (@andAlso_falsy _ _ Fum). cbn [bindc]. rewrite Fum. reflexivity.
    + destruct (ToBoolean um) eqn:Tum.
      * rewrite (@andAlso_truthy _ _ Tum), Hus. cbn [bindc]. rewrite Fus. reflexivity.
      * rewrite (@andAlso_falsy _ _ Tum). cbn [bindc]. rewrite Tum. reflexivity.
    + destruct (ToBoolean um) eqn:Tum.
      * rewrite (@andAlso_truthy _ _ Tum), Hus. cbn [bindc].
        destruct (ToBoolean users); [|reflexivity].
        rewrite Hk. reflexivity.
      * rewrite (@andAlso_falsy _ _ Tum). cbn [bindc]. rewrite Tum. reflexivity.
Qed.





(* ================================================================== *)
(** * Properties of the fetcher and of the retry loop *)
(* ================================================================== *)

(** C7. [scrapeTikTokBio] issues one GET for the profile URL and settles by
    the status of the response: 404 and 403 fail with their own errors, any
    other status outside the success range fails with an error that carries
    the status and the status text, and a success status yields what
    [extractBioFromHtml] returns on the body. *)
Theorem scrapeTikTokBio_classifies (username : jsstring) (w : World) (response : Response) :
  network w (fetched w) = Resolved response ->
  snd (scrapeTikTokBio username w) = fetchedOnce username w
  /\ (status response = 404%N ->
      fst (scrapeTikTokBio username w)
      = Err (ErrError (str "TikTok user @" ++ username ++ str " not found")))
  /\ (status response = 403%N ->
      fst (scrapeTikTokBio username w)
      = Err (ErrError (str "TikTok blocked request (403 Forbidden)")))
  /\ (ok response = false -> status response <> 404%N -> status response <> 403%N ->
      fst (scrapeTikTokBio username w)
      = Err (ErrError (str "HTTP " ++ decimal (status response) ++ str ": "
                       ++ statusText response)))
  /\ (ok response = true -> forall html, text response = Ok html ->
      fst (scrapeTikTokBio username w) = callResult (extractBioFromHtml html)).
Proof.
  intros Hnet. unfold scrapeTikTokBio, fetch. cbn [fst snd]. rewrite Hnet.
  split; [reflexivity|]. unfold classify.
  split; [|split; [|split]].
  - intros H. unfold ok. rewrite H. reflexivity.
  - intros H. unfold ok. rewrite H. reflexivity.
  - intros Hok H404 H403. rewrite Hok. cbn [negb].
    apply N.eqb_neq in H404, H403. now rewrite H404, H403.
  - intros Hok html Htext. rewrite Hok, Htext. reflexivity.
Qed.

Lemma scrapeTikTokBio_classifies_witness :
  fst (scrapeTikTokBio (str "bob") notFoundWorld)
  = Err (ErrError (str "TikTok user @bob not found"))
  /\ fst (scrapeTikTokBio (str "bob") flakyWorld) = Err (ErrReject (str "fetch failed"))
  /\ fst (scrapeTikTokBio (str "bob") loginWallWorld) = Ok VNull.
Proof.
  split; [|split].
  - apply (@scrapeTikTokBio_classifies (str "bob") notFoundWorld
             (mkResponse 404 (str "Not Found") (Ok []))); reflexivity.
  - vm_compute. reflexivity.
  - vm_compute. reflexivity.
Defined.

Lemma attemptNumbers_eq : attemptNumbers = [1; 2; 3]%N.
Proof. reflexivity. Qed.

Section RetryFacts.

Variable toLowerCase : jsstring -> jsstring.

Lemma attemptBody_error (username : jsstring) (code : value) (attempt : N)
    (w : World) (e : error) :
  classify username (network w (fetched w)) = Err e ->
  attemptBody toLowerCase username code attempt w =
  if N.eqb attempt maxRetries then (Throw e, fetchedOnce username w)
  else (Normal, sleep (1000 * attempt) (fetchedOnce username w)).
Proof.
  intros H. unfold attemptBody, scrapeTikTokBio, fetch. rewrite H. reflexivity.
Qed.

Lemma attemptBody_no_bio (username : jsstring) (code : value) (attempt : N)
    (w : World) (v : value) :
  classify username (network w (fetched w)) = Ok v ->
  ToBoolean v = false ->
  attemptBody toLowerCase username code attempt w =
  (Normal, if N.ltb attempt maxRetries
           then sleep (2000 * attempt) (fetchedOnce username w)
           else fetchedOnce username w).
Proof.
  intros H F. unfold attemptBody, scrapeTikTokBio, fetch. rewrite H, F.
  destruct (N.ltb attempt maxRetries); reflexivity.
Qed.

Lemma attemptBody_bio (username bio code : jsstring) (attempt : N) (w : World) :
  classify username (network w (fetched w)) = Ok (VString bio) ->
  bio <> [] ->
  attemptBody toLowerCase username (VString code) attempt w =
  (Return (VBool (codeFound toLowerCase bio code)), fetchedOnce username w).
Proof.
  intros H Hne. unfold attemptBody, scrapeTikTokBio, fetch. rewrite H.
  destruct bio as [|c bio]; [congruence|]. reflexivity.
Qed.

Lemma forAttempts_app (username : jsstring) (code : value)
    (earlier later : list N) (w : World) :
  forAttempts toLowerCase username code (earlier ++ later) w =
  match forAttempts toLowerCase username code earlier w with
  | (Normal, w') => forAttempts toLowerCase username code later w'
  | stopped => stopped
  end.
Proof.
  revert w; induction earlier as [|a earlier IH]; intros w; simpl; [reflexivity|].
  destruct (attemptBody toLowerCase username code a w) as [[|v|e] w']; auto.
Qed.

(** C2. On the attempt that obtains a non-empty bio string, the verdict
    of [checkTikTokBio] is [true] exactly when the lower-cased code occurs
    inside the lower-cased bio, and [false] exactly when it does not;
    nothing but [toLowerCase] is applied to either string. *)
Theorem checkTikTokBio_verdict_iff_substring
    (username code bio : jsstring) (earlier later : list N) (attempt : N)
    (w w1 : World) :
  attemptNumbers = earlier ++ attempt :: later ->
  forAttempts toLowerCase username (VString code) earlier w = (Normal, w1) ->
  classify username (network w1 (fetched w1)) = Ok (VString bio) ->
  bio <> [] ->
  (fst (checkTikTokBio toLowerCase username (VString code) w) = Return (VBool true)
   <-> exists before after,
         toLowerCase bio = before ++ toLowerCase code ++ after)
  /\ (fst (checkTikTokBio toLowerCase username (VString code) w) = Return (VBool false)
      <-> ~ exists before after,
              toLowerCase bio = before ++ toLowerCase code ++ after).
Proof.
  intros Hsplit Hearlier Hbio Hne.
  assert (Hrun : fst (checkTikTokBio toLowerCase username (VString code) w)
                 = Return (VBool (includes (toLowerCase bio) (toLowerCase code)))).
  { unfold checkTikTokBio. rewrite Hsplit, forAttempts_app, Hearlier.
    cbn [forAttempts]. rewrite (@attemptBody_bio _ _ _ _ _ Hbio Hne). reflexivity. }
  rewrite Hrun, <- includes_iff.
  destruct (includes (toLowerCase bio) (toLowerCase code)); split; split;
    intros H; try reflexivity; try discriminate; try congruence.
Qed.

(** C4. When [scrapeTikTokBio] fails on each of three attempts,
    [checkTikTokBio] makes exactly those three requests, sleeps 1000 ms
    after the first and 2000 ms after the second, and throws the error of
    the third. *)
Theorem checkTikTokBio_throws_last_error
    (username : jsstring) (code : value) (w : World) (e1 e2 e3 : error) :
  classify username (network w (fetched w)) = Err e1 ->
  classify username (network w (1 + fetched w)) = Err e2 ->
  classify username (network w (2 + fetched w)) = Err e3 ->
  checkTikTokBio toLowerCase username code w =
  (Throw e3,
   mkWorld (network w) (3 + fetched w)
     (trace w ++ [profileRequest username; Sleep 1000;
                  profileRequest username; Sleep 2000;
                  profileRequest username])
     (clock w)).
Proof.
  intros H1 H2 H3.
  unfold checkTikTokBio. rewrite attemptNumbers_eq. cbn [forAttempts].
  rewrite (@attemptBody_error _ _ _ _ _ H1). change (N.eqb 1 maxRetries) with false; change (N.eqb 2 maxRetries) with false;
    change (N.eqb 3 maxRetries) with true; cbv iota.
  rewrite (@attemptBody_error _ _ _ (sleep _ _) e2) by exact H2.
  change (N.eqb 1 maxRetries) with false; change (N.eqb 2 maxRetries) with false;
    change (N.eqb 3 maxRetries) with true; cbv iota.
  rewrite (@attemptBody_error _ _ _ (sleep _ _) e3) by exact H3.
  change (N.eqb 1 maxRetries) with false; change (N.eqb 2 maxRetries) with false;
    change (N.eqb 3 maxRetries) with true; cbv iota.
  unfold sleep, fetchedOnce; cbn [network fetched trace clock].
  rewrite <- !app_assoc. reflexivity.
Qed.

(** C5. When [scrapeTikTokBio] succeeds without a bio on each of three
    attempts, [checkTikTokBio] makes exactly those three requests, sleeps
    2000 ms after the first and 4000 ms after the second, and returns
    [false]. *)
Theorem checkTikTokBio_false_without_bio
    (username : jsstring) (code : value) (w : World) (v1 v2 v3 : value) :
  classify username (network w (fetched w)) = Ok v1 -> ToBoolean v1 = false ->
  classify username (network w (1 + fetched w)) = Ok v2 -> ToBoolean v2 = false ->
  classify username (network w (2 + fetched w)) = Ok v3 -> ToBoolean v3 = false ->
  checkTikTokBio toLowerCase username code w =
  (Return (VBool false),
   mkWorld (network w) (3 + fetched w)
     (trace w ++ [profileRequest username; Sleep 2000;
                  profileRequest username; Sleep 4000;
                  profileRequest username])
     (clock w)).
Proof.
  intros H1 F1 H2 F2 H3 F3.
  unfold checkTikTokBio. rewrite attemptNumbers_eq. cbn [forAttempts].
  rewrite (@attemptBody_no_bio _ _ _ _ _ H1 F1). change (N.ltb 1 maxRetries) with true; change (N.ltb 2 maxRetries) with true;
    change (N.ltb 3 maxRetries) with false; cbv iota.
  rewrite (@attemptBody_no_bio _ _ _ (sleep _ _) v2) by assumption.
  change (N.ltb 1 maxRetries) with true; change (N.ltb 2 maxRetries) with true;
    change (N.ltb 3 maxRetries) with false; cbv iota.
  rewrite (@attemptBody_no_bio _ _ _ (sleep _ _) v3) by assumption.
  change (N.ltb 1 maxRetries) with true; change (N.ltb 2 maxRetries) with true;
    change (N.ltb 3 maxRetries) with false; cbv iota.
  unfold sleep, fetchedOnce; cbn [network fetched trace clock].
  rewrite <- !app_assoc. reflexivity.
Qed.

(** C6 (as amended). On whichever attempt [scrapeTikTokBio] returns a
    non-empty bio string, [checkTikTokBio] called with a code that is a
    string returns the result of the test on that bio at once: the request
    that produced the bio is the last effect, whether the code was found
    or not and whatever attempts were left. *)
Theorem checkTikTokBio_stops_at_first_bio
    (username code bio : jsstring) (earlier later : list N) (attempt : N)
    (w w1 : World) :
  attemptNumbers = earlier ++ attempt :: later ->
  forAttempts toLowerCase username (VString code) earlier w = (Normal, w1) ->
  classify username (network w1 (fetched w1)) = Ok (VString bio) ->
  bio <> [] ->
  checkTikTokBio toLowerCase username (VString code) w =
  (Return (VBool (codeFound toLowerCase bio code)), fetchedOnce username w1).
Proof.
  intros Hsplit Hearlier Hbio Hne.
  unfold checkTikTokBio. rewrite Hsplit, forAttempts_app, Hearlier.
  cbn [forAttempts]. rewrite (@attemptBody_bio _ _ _ _ _ Hbio Hne). reflexivity.
Qed.

End RetryFacts.

Lemma checkTikTokBio_throws_last_error_witness :
  fst (checkTikTokBio asciiLowerCase (str "bob") (VString (str "abc123")) notFoundWorld)
  = Throw (ErrError (str "TikTok user @bob not found"))
  /\ trace (snd (checkTikTokBio asciiLowerCase (str "bob") (VString (str "abc123"))
                   notFoundWorld))
     = [profileRequest (str "bob"); Sleep 1000; profileRequest (str "bob"); Sleep 2000;
        profileRequest (str "bob")]
  /\ fetched (snd (checkTikTokBio asciiLowerCase (str "bob") (VString (str "abc123"))
                     notFoundWorld)) = 3.
Proof.
  rewrite (@checkTikTokBio_throws_last_error asciiLowerCase (str "bob")
             (VString (str "abc123")) notFoundWorld
             (ErrError (str "TikTok user @bob not found"))
             (ErrError (str "TikTok user @bob not found"))
             (ErrError (str "TikTok user @bob not found"))
             eq_refl eq_refl eq_refl).
  repeat split.
Defined.

Lemma checkTikTokBio_false_without_bio_witness :
  fst (checkTikTokBio asciiLowerCase (str "bob") (VString (str "abc123")) loginWallWorld)
  = Return (VBool false)
  /\ trace (snd (checkTikTokBio asciiLowerCase (str "bob") (VString (str "abc123"))
                   loginWallWorld))
     = [profileRequest (str "bob"); Sleep 2000; profileRequest (str "bob"); Sleep 4000;
        profileRequest (str "bob")]
  /\ fetched (snd (checkTikTokBio asciiLowerCase (str "bob") (VString (str "abc123"))
                     loginWallWorld)) = 3.
Proof.
  rewrite (@checkTikTokBio_false_without_bio asciiLowerCase (str "bob")
             (VString (str "abc123")) loginWallWorld VNull VNull VNull
             eq_refl eq_refl eq_refl eq_refl eq_refl eq_refl).
  repeat split.
Defined.

(** A bio at the first request, with two attempts left and the code
    absent from it: the run ends with [false] after that one request. And
    two rejected requests, then a page whose bio holds the code in another
    case: the third attempt ends the run with [true]. *)
Lemma checkTikTokBio_stops_at_first_bio_witness :
  (fst (checkTikTokBio asciiLowerCase (str "bob") (VString (str "xyz789")) bioWorld)
   = Return (VBool false)
   /\ fetched (snd (checkTikTokBio asciiLowerCase (str "bob") (VString (str "xyz789"))
                      bioWorld)) = 1
   /\ trace (snd (checkTikTokBio asciiLowerCase (str "bob") (VString (str "xyz789"))
                    bioWorld)) = [profileRequest (str "bob")])
  /\ fst (checkTikTokBio asciiLowerCase (str "bob") (VString (str "abc123")) flakyWorld)
     = Return (VBool true)
  /\ fetched (snd (checkTikTokBio asciiLowerCase (str "bob") (VString (str "abc123"))
                     flakyWorld)) = 3.
Proof.
  split.
  - rewrite (@checkTikTokBio_stops_at_first_bio asciiLowerCase (str "bob") (str "xyz789")
               (str "Verify: ABC123 #brand") [] [2; 3]%N 1%N bioWorld bioWorld
               eq_refl eq_refl eq_refl).
    + repeat split.
    + discriminate.
  - rewrite (@checkTikTokBio_stops_at_first_bio asciiLowerCase (str "bob") (str "abc123")
               (str "Verify: ABC123 #brand") [1; 2]%N [] 3%N flakyWorld
               (mkWorld (network flakyWorld) 2
                  [profileRequest (str "bob"); Sleep 1000;
                   profileRequest (str "bob"); Sleep 2000]
                  (clock flakyWorld))
               eq_refl eq_refl eq_refl).
    + split; reflexivity.
    + discriminate.
Defined.

(** C6 as stated fails when the code is not a string. The number 123 passes
    the check of [handler]; the first request obtains the bio, the test on
    it throws a TypeError inside [try], and two more requests follow before
    the error is thrown. *)
Lemma checkTikTokBio_refetches_after_bio :
  fst (scrapeTikTokBio (str "bob") bioWorld) = Ok (VString (str "Verify: ABC123 #brand"))
  /\ fst (checkTikTokBio asciiLowerCase (str "bob") (VNumber (mkNumber false 123 0))
            bioWorld) = Throw ErrType
  /\ trace (snd (checkTikTokBio asciiLowerCase (str "bob") (VNumber (mkNumber false 123 0))
                   bioWorld))
     = [profileRequest (str "bob"); Sleep 1000; profileRequest (str "bob"); Sleep 2000;
        profileRequest (str "bob")]
  /\ statusCode (fst (handler asciiLowerCase
                        (postRequest (VString (str "bob")) (VNumber (mkNumber false 123 0)))
                        bioWorld)) = 500%N
  /\ fetched (snd (handler asciiLowerCase
                     (postRequest (VString (str "bob")) (VNumber (mkNumber false 123 0)))
                     bioWorld)) = 3.
Proof. vm_compute. repeat split; reflexivity. Qed.

(** The spec's scenario at the first request, and the same code with a
    blank inside it: case is folded, white space is not. *)
Lemma checkTikTokBio_verdict_iff_substring_witness :
  fst (checkTikTokBio asciiLowerCase (str "bob") (VString (str "abc123")) bioWorld)
  = Return (VBool true)
  /\ fst (checkTikTokBio asciiLowerCase (str "bob") (VString (str "abc 123")) bioWorld)
     = Return (VBool false).
Proof.
  split.
  - apply (proj1 (@checkTikTokBio_verdict_iff_substring asciiLowerCase (str "bob")
                    (str "abc123") (str "Verify: ABC123 #brand") [] [2; 3]%N 1%N
                    bioWorld bioWorld eq_refl eq_refl eq_refl ltac:(discriminate))).
    exists (str "verify: "), (str " #brand"). reflexivity.
  - apply (proj2 (@checkTikTokBio_verdict_iff_substring asciiLowerCase (str "bob")
                    (str "abc 123") (str "Verify: ABC123 #brand") [] [2; 3]%N 1%N
                    bioWorld bioWorld eq_refl eq_refl eq_refl ltac:(discriminate))).
    intros H. apply includes_iff in H. vm_compute in H. discriminate.
Defined.

(* ================================================================== *)
(** * Properties of [handler] *)
(* ================================================================== *)

Section HandlerFacts.

Variable toLowerCase : jsstring -> jsstring.

(** X20. A POST request whose two fields can be read is answered 400
    exactly when the username or the code is falsy as received, and the
    world is then unchanged: the test comes before the username is
    cleaned and before any request. *)
Theorem handler_fields_required (req : Request) (w : World) (username code : value) :
  reqMethod req = str "POST" ->
  getProp (reqBody req) (str "username") = Ok username ->
  getProp (reqBody req) (str "code") = Ok code ->
  (ToBoolean username = false \/ ToBoolean code = false ->
   handler toLowerCase req w = (mkReply corsHeaders 400 FieldsRequired, w))
  /\ (statusCode (fst (handler toLowerCase req w)) = 400%N ->
      ToBoolean username = false \/ ToBoolean code = false).
Proof.
  intros Hm Hu Hc.
  unfold handler. rewrite Hm, Hu, Hc.
  change (jsstring_eqb (str "POST") (str "OPTIONS")) with false.
  change (jsstring_eqb (str "POST") (str "POST")) with true.
  cbv iota. cbn [negb].
  destruct (ToBoolean username) eqn:Tu; cbn [negb orb].
  2:{ split; [reflexivity | now left]. }
  destruct (ToBoolean code) eqn:Tc; cbn [negb].
  2:{ split; [reflexivity | now right]. }
  split; [intros [H | H]; discriminate|].
  destruct (cleanUsername username) as [clean|e]; [|discriminate].
  destruct (templateThrows code); [discriminate|].
  destruct (checkTikTokBio toLowerCase clean code w) as [[|v|e] w']; discriminate.
Qed.

(** X21. Cleaning deletes the first [@] of the username, wherever it
    stands, and trims what is left; a username without [@] is only
    trimmed. *)
Theorem cleanUsernameOf_first_at :
  (forall before after,
     forallb (fun c => negb (N.eqb 64 c)) before = true ->
     cleanUsernameOf (before ++ 64%N :: after) = trim (before ++ after))
  /\ (forall username,
        forallb (fun c => negb (N.eqb 64 c)) username = true ->
        cleanUsernameOf username = trim username).
Proof.
  split.
  - intros before after H. unfold cleanUsernameOf. now rewrite replaceFirst_at.
  - intros username H. unfold cleanUsernameOf. now rewrite replaceFirst_absent.
Qed.

End HandlerFacts.

Lemma handler_fields_required_witness :
  handler asciiLowerCase (postRequest (VString []) (VString (str "abc123"))) notFoundWorld
  = (mkReply corsHeaders 400 FieldsRequired, notFoundWorld)
  /\ handler asciiLowerCase (postRequest (VString (str "bob")) VUndefined) notFoundWorld
     = (mkReply corsHeaders 400 FieldsRequired, notFoundWorld).
Proof.
  split.
  - apply (proj1 (@handler_fields_required asciiLowerCase
                    (postRequest (VString []) (VString (str "abc123"))) notFoundWorld
                    (VString []) (VString (str "abc123")) eq_refl eq_refl eq_refl)).
    left; reflexivity.
  - apply (proj1 (@handler_fields_required asciiLowerCase
                    (postRequest (VString (str "bob")) VUndefined) notFoundWorld
                    (VString (str "bob")) VUndefined eq_refl eq_refl eq_refl)).
    right; reflexivity.
Defined.

Lemma cleanUsernameOf_first_at_witness :
  cleanUsernameOf (str "@Example.User ") = str "Example.User"
  /\ cleanUsernameOf (str "a@b@c") = str "ab@c"
  /\ cleanUsernameOf (str " bob ") = str "bob".
Proof.
  split; [|split].
  - exact (proj1 cleanUsernameOf_first_at [] (str "Example.User ") eq_refl).
  - exact (proj1 cleanUsernameOf_first_at (str "a") (str "b@c") eq_refl).
  - exact (proj2 cleanUsernameOf_first_at (str " bob ") eq_refl).
Defined.

(** C8. [handler] at the failing input. The username ["@"] passes the test
    for missing fields, which is made on the username as received, and is
    empty once cleaned; so is a username of blanks. Neither request is
    rejected: [checkTikTokBio] runs and asks three times for the profile of
    the empty name, whereas a username that is empty as received is
    answered 400 without a request. *)
Lemma handler_runs_core_on_empty_username :
  (cleanUsername (VString (str "@")) = Ok []
   /\ statusCode (fst (handler asciiLowerCase
                         (postRequest (VString (str "@")) (VString (str "abc123")))
                         notFoundWorld)) = 500%N
   /\ trace (snd (handler asciiLowerCase
                    (postRequest (VString (str "@")) (VString (str "abc123")))
                    notFoundWorld))
      = [profileRequest []; Sleep 1000; profileRequest []; Sleep 2000; profileRequest []])
  /\
  (cleanUsername (VString (str "  ")) = Ok []
   /\ fetched (snd (handler asciiLowerCase
                      (postRequest (VString (str "  ")) (VString (str "abc123")))
                      notFoundWorld)) = 3)
  /\
  handler asciiLowerCase (postRequest (VString []) (VString (str "abc123"))) notFoundWorld
  = (mkReply corsHeaders 400 FieldsRequired, notFoundWorld).
Proof.
  split; [|split].
  - vm_compute. repeat split; reflexivity.
  - vm_compute. repeat split; reflexivity.
  - reflexivity.
Qed.

(* ================================================================== *)
(** * Further facts about the matcher *)
(* ================================================================== *)

Section FoldFacts.

Variable fl : flags.

(** A run of pattern characters is a prefix test on the folded input,
    with or without the [i] flag. *)
Lemma matcher_lit_fold (w : jsstring) (k : Continuation) (x : jsstring) cap :
  matcher fl (lit w) k x cap =
  if startsWith (foldCase fl w) (foldCase fl x)
  then k (skipn (length w) x) cap else None.
Proof.
  revert x. induction w as [|c w IH]; intros x; [reflexivity|].
  change (lit (c :: w)) with (Seq (Atom (Chr c)) (lit w)).
  rewrite matcher_seq. cbn [matcher].
  destruct x as [|d x]; [reflexivity|].
  cbn [foldCase map startsWith atomMatches length skipn].
  destruct (N.eqb (canonicalize fl c) (canonicalize fl d)); cbn [andb];
    [apply IH | reflexivity].
Qed.

Lemma foldCase_skipn (n : nat) (x : jsstring) :
  foldCase fl (skipn n x) = skipn n (foldCase fl x).
Proof.
  revert x; induction n as [|n IH]; intros [|c x]; try reflexivity.
  cbn [skipn foldCase map]. apply IH.
Qed.

Lemma foldCase_exact (x : jsstring) :
  ignoreCase fl = false -> foldCase fl x = x.
Proof.
  intros H. induction x as [|c x IH]; [reflexivity|].
  cbn [foldCase map]. rewrite (canonicalize_exact fl c H). f_equal. exact IH.
Qed.

Lemma firstMatch_spec (r : regex) (x : jsstring) (n : nat) :
  firstMatch fl r x = Some n ->
  (forall i, i < n -> matchHere fl r (skipn i x) = None)
  /\ exists m, matchHere fl r (skipn n x) = Some m.
Proof.
  revert n; induction x as [|c x IH]; intros n H; cbn [firstMatch] in H.
  - destruct (matchHere fl r []) as [m|] eqn:E; [|discriminate].
    injection H as <-. split; [intros i Hi; lia | now exists m].
  - destruct (matchHere fl r (c :: x)) as [m|] eqn:E.
    + injection H as <-. split; [intros i Hi; lia | now exists m].
    + destruct (firstMatch fl r x) as [k|] eqn:Ek; [|discriminate].
      injection H as <-. destruct (IH k eq_refl) as [Hno Hat].
      split; [|exact Hat].
      intros [|i] Hi; [exact E|]. cbn [skipn]. apply Hno. lia.
Qed.

(** [exec] returns the match at the leftmost matching position. *)
Lemma exec_at_firstMatch (r : regex) (x : jsstring) (n : nat) :
  firstMatch fl r x = Some n -> exec fl r x = matchHere fl r (skipn n x).
Proof.
  intros H. destruct (firstMatch_spec _ _ H) as [Hno [m Hm]].
  rewrite Hm. now apply exec_first with (n := n).
Qed.

Lemma includes_false_everywhere (s pat : jsstring) :
  includes s pat = false -> forall i, startsWith pat (skipn i s) = false.
Proof.
  induction s as [|c s IH]; cbn [includes]; intros H i.
  - apply orb_false_iff in H as [H _]. destruct i; exact H.
  - apply orb_false_iff in H as [H Hs].
    destruct i as [|i]; [exact H|]. cbn [skipn]. now apply IH.
Qed.

(** A pattern that opens with a run of pattern characters matches nowhere
    in a text that does not hold that run. *)
Lemma exec_none_without_opener (w : jsstring) (r : regex) (x : jsstring) :
  includes (foldCase fl x) (foldCase fl w) = false ->
  exec fl (Seq (lit w) r) x = None.
Proof.
  intros H. apply exec_none. intros i. unfold matchHere.
  rewrite matcher_seq, matcher_lit_fold, foldCase_skipn.
  now rewrite (includes_false_everywhere _ _ H i).
Qed.

Lemma matcher_plus (a : atom) (k : Continuation) (c : codeUnit) (x : jsstring) cap :
  atomMatches fl a c = true ->
  matcher fl (Plus a) k (c :: x) cap = starGreedy fl a k x cap.
Proof. intros H. cbn [matcher]. now rewrite H. Qed.

Lemma matcher_group_star (a : atom) (k : Continuation) (x : jsstring) cap :
  matcher fl (Group (Star a)) k x cap =
  starGreedy fl a (fun y _ => k y (Some (firstn (length x - length y) x))) x cap.
Proof. reflexivity. Qed.

End FoldFacts.

(* ================================================================== *)
(** * The meta tag that [extractBioFromHtml] reads *)
(* ================================================================== *)

Lemma metaDescPattern_parts :
  metaDescPattern =
  Seq (lit metaOpen)
    (Seq (Plus Space)
       (Seq (lit metaName)
          (Seq (Plus Space)
             (Seq (lit metaContentOpen)
                (Seq (Group (Star (NotChr 34%N)))
                   (Seq (lit dq)
                      (Seq (Star (NotChr gt)) (Seq (lit [gt]) Empty)))))))).
Proof. reflexivity. Qed.

Lemma foldCase_app (fl : flags) (a b : jsstring) :
  foldCase fl (a ++ b) = foldCase fl a ++ foldCase fl b.
Proof. apply map_app. Qed.

(** A text that agrees with the pattern's up to case is consumed. *)
Lemma matcher_lit_sameFold (fl : flags) (w a : jsstring) (k : Continuation)
    (x : jsstring) cap :
  sameFold fl a w = true ->
  matcher fl (lit w) k (a ++ x) cap = k x cap.
Proof.
  unfold sameFold. intros H. apply jsstring_eqb_eq in H.
  assert (Hlen : length w = length a).
  { unfold foldCase in H.
    rewrite <- (length_map (canonicalize fl) w), <- H. apply length_map. }
  rewrite matcher_lit_fold, foldCase_app, <- H, startsWith_app, Hlen.
  now rewrite skipn_length_app.
Qed.

(** Punctuation is compared exactly even under the [i] flag. *)
Lemma canonicalize_punctuation (fl : flags) (p c : codeUnit) :
  (p < 65)%N ->
  N.eqb (canonicalize fl p) (canonicalize fl c) = N.eqb p c.
Proof.
  intros Hp. unfold canonicalize.
  destruct (ignoreCase fl); cbn [andb]; [|reflexivity].
  assert (Ep : (N.leb 97 p && N.leb p 122) = false).
  { apply andb_false_iff. left. apply N.leb_gt. lia. }
  rewrite Ep.
  destruct (N.leb 97 c && N.leb c 122) eqn:Ec; [|reflexivity].
  apply andb_true_iff in Ec as [E1 E2].
  apply N.leb_le in E1, E2.
  transitivity false; [apply N.eqb_neq | symmetry; apply N.eqb_neq]; lia.
Qed.

(** What agrees up to case with a letter is not white space. *)
Lemma letter_not_blank (fl : flags) (p c : codeUnit) :
  (65 <= p <= 122)%N ->
  N.eqb (canonicalize fl p) (canonicalize fl c) = true ->
  isWhiteSpace c = false.
Proof.
  intros Hp H. apply N.eqb_eq in H.
  assert (Hc : (33 <= c <= 122)%N).
  { revert H. unfold canonicalize.
    destruct (ignoreCase fl && N.leb 97 p && N.leb p 122) eqn:E1;
      destruct (ignoreCase fl && N.leb 97 c && N.leb c 122) eqn:E2;
      repeat match goal with
             | E : _ && _ = true |- _ => apply andb_true_iff in E as [? ?]
             | E : N.leb _ _ = true |- _ => apply N.leb_le in E
             end; lia. }
  unfold isWhiteSpace, isLineTerminator.
  repeat match goal with
         | |- _ || _ = false => apply orb_false_iff; split
         | |- _ && _ = false => apply andb_false_iff; left
         | |- N.eqb _ _ = false => apply N.eqb_neq; lia
         | |- N.leb _ _ = false => apply N.leb_gt; lia
         end.
Qed.

Lemma sameFold_head (fl : flags) (a w : jsstring) (p : codeUnit) :
  sameFold fl a (p :: w) = true ->
  exists c a', a = c :: a' /\ N.eqb (canonicalize fl p) (canonicalize fl c) = true.
Proof.
  unfold sameFold. destruct a as [|c a']; cbn [foldCase map jsstring_eqb];
    [discriminate|].
  intros H. apply andb_true_iff in H as [H _].
  exists c, a'. split; [reflexivity|]. now rewrite N.eqb_sym.
Qed.

(** At a description meta tag the pattern matches, and the group is the
    attribute value. *)
Lemma meta_matchHere (t : MetaTag) (post : jsstring) :
  descriptionTag t = true ->
  matchHere metaDescFlags metaDescPattern (metaTagText t ++ post)
  = Some (mkMatch post (Some (content t))).
Proof.
  unfold descriptionTag. intros H.
  apply andb_true_iff in H as [H Htl]. apply andb_true_iff in H as [H Hv].
  apply andb_true_iff in H as [H Hco]. apply andb_true_iff in H as [H Hg2].
  apply andb_true_iff in H as [H Hnm]. apply andb_true_iff in H as [Ho Hg1].
  destruct t as [o g1 nm g2 co v tl]. cbn [tagOpen gap1 nameAttr gap2 contentOpen
    content tagTail] in *.
  unfold metaTagText. cbn [tagOpen gap1 nameAttr gap2 contentOpen content tagTail].
  rewrite <- !app_assoc.
  unfold matchHere. rewrite metaDescPattern_parts.
  rewrite matcher_seq, matcher_lit_sameFold by exact Ho.
  (* first gap *)
  destruct g1 as [|b1 g1]; [discriminate|].
  cbn [isBlank forallb] in Hg1. apply andb_true_iff in Hg1 as [Hb1 Hg1].
  rewrite matcher_seq, <- app_comm_cons, matcher_plus by exact Hb1.
  destruct (sameFold_head _ _ _ _ Hnm) as (n0 & nm' & -> & Hn0).
  apply starGreedy_run; [exact Hg1 | |].
  { cbn [app]. apply negb_true_iff. cbn [atomMatches].
    apply (@letter_not_blank metaDescFlags 110%N n0); [lia | exact Hn0]. }
  rewrite matcher_seq, matcher_lit_sameFold by exact Hnm.
  (* second gap *)
  destruct g2 as [|b2 g2]; [discriminate|].
  cbn [isBlank forallb] in Hg2. apply andb_true_iff in Hg2 as [Hb2 Hg2].
  rewrite matcher_seq, <- app_comm_cons, matcher_plus by exact Hb2.
  destruct (sameFold_head _ _ _ _ Hco) as (c0 & co' & -> & Hc0).
  apply starGreedy_run; [exact Hg2 | |].
  { cbn [app]. apply negb_true_iff. cbn [atomMatches].
    apply (@letter_not_blank metaDescFlags 99%N c0); [lia | exact Hc0]. }
  rewrite matcher_seq, matcher_lit_sameFold by exact Hco.
  (* the value *)
  rewrite matcher_seq, matcher_group_star.
  apply starGreedy_run.
  { rewrite <- Hv. apply forallb_pointwise. intros c. cbn [atomMatches].
    now rewrite canonicalize_punctuation by lia. }
  { reflexivity. }
  rewrite matcher_seq, matcher_lit_sameFold by reflexivity.
  rewrite matcher_seq, matcher_star.
  apply starGreedy_run.
  { rewrite <- Htl. apply forallb_pointwise. intros c. cbn [atomMatches].
    now rewrite canonicalize_punctuation by (unfold gt; lia). }
  { reflexivity. }
  rewrite matcher_seq, matcher_lit_sameFold by reflexivity.
  cbn [matcher]. unfold accept.
  now rewrite firstn_app_minus.
Qed.

Lemma meta_exec (pre post : jsstring) (t : MetaTag) :
  descriptionTag t = true ->
  firstMatch metaDescFlags metaDescPattern (pre ++ metaTagText t ++ post)
  = Some (length pre) ->
  exec metaDescFlags metaDescPattern (pre ++ metaTagText t ++ post)
  = Some (mkMatch post (Some (content t))).
Proof.
  intros Ht Hfirst.
  rewrite (exec_at_firstMatch _ _ _ Hfirst), skipn_length_app.
  now apply meta_matchHere.
Qed.

(* ================================================================== *)
(** * Further properties of [extractBioFromHtml] *)
(* ================================================================== *)

(** X1. A page that holds none of the four opening texts (the JSON-LD
    script tag, [<meta] in any letter case, the [SIGI_STATE] assignment
    target, [<div]) yields [null]. *)
Theorem extractBioFromHtml_null_without_openers (html : jsstring) :
  includes html jsonLdOpen = false ->
  includes (foldCase metaDescFlags html) (foldCase metaDescFlags metaOpen) = false ->
  includes html (str "window['SIGI_STATE']") = false ->
  includes html (str "<div") = false ->
  extractBioFromHtml html = Return VNull.
Proof.
  intros Hld Hmeta Hsigi Hdiv.
  assert (E1 : exec jsonLdFlags jsonLdPattern html = None).
  { rewrite jsonLdPattern_parts. apply exec_none_without_opener.
    now rewrite !foldCase_exact by reflexivity. }
  assert (E2 : exec metaDescFlags metaDescPattern html = None).
  { rewrite metaDescPattern_parts. now apply exec_none_without_opener. }
  assert (E3 : exec sigiFlags sigiPattern html = None).
  { change sigiPattern with
      (Seq (lit (str "window['SIGI_STATE']"))
         (cat [Star Space; lit (str "="); Star Space;
               Group (cat [lit (str "{"); LazyStar Dot; lit (str "}")]);
               lit (str ";")])).
    apply exec_none_without_opener.
    now rewrite !foldCase_exact by reflexivity. }
  assert (E4 : exec bioElementFlags bioElementPattern html = None).
  { change bioElementPattern with
      (Seq (lit (str "<div"))
         (cat [Star (NotChr gt);
               lit (str "data-e2e=" ++ dq ++ str "user-bio" ++ dq);
               Star (NotChr gt); lit [gt]; Group (LazyStar Dot); lit (str "</div>")])).
    apply exec_none_without_opener.
    now rewrite !foldCase_exact by reflexivity. }
  unfold extractBioFromHtml, viaJsonLd, viaMetaDescription, viaSigiState, viaBioElement.
  now rewrite E1, E2, E3, E4.
Qed.

Lemma extractBioFromHtml_null_without_openers_witness :
  extractBioFromHtml (str "<html><body><p>Log in to TikTok</p></body></html>")
  = Return VNull.
Proof.
  apply extractBioFromHtml_null_without_openers; vm_compute; reflexivity.
Defined.

(** X2. When the JSON-LD strategy yields nothing and the leftmost match of
    the meta pattern is a description meta tag, written in any letter case
    and with any white space between its attributes, whose value is not
    empty, [extractBioFromHtml] returns that value, whatever state blob or
    bio element the page also holds. *)
Theorem meta_description_returned (pre post : jsstring) (t : MetaTag) :
  descriptionTag t = true ->
  firstMatch metaDescFlags metaDescPattern (pre ++ metaTagText t ++ post)
  = Some (length pre) ->
  viaJsonLd (pre ++ metaTagText t ++ post) = Normal ->
  content t <> [] ->
  extractBioFromHtml (pre ++ metaTagText t ++ post) = Return (VString (content t)).
Proof.
  intros Ht Hfirst Hld Hne.
  unfold extractBioFromHtml, viaMetaDescription.
  rewrite Hld, (meta_exec _ _ _ Ht Hfirst).
  unfold capture. cbn [group1 seqc].
  destruct (content t) as [|c v]; [congruence | reflexivity].
Qed.

Lemma meta_description_returned_witness :
  extractBioFromHtml (charsetThenDescription (str "My bio"))
  = Return (VString (str "My bio")).
Proof.
  apply (@meta_description_returned (str "<head><meta charset=utf-8>")
           (str "<div data-e2e=" ++ dq ++ str "user-bio" ++ dq ++ str ">Element bio</div>")
           (shoutedTag (str "My bio")));
    [vm_compute; reflexivity | vm_compute; reflexivity | vm_compute; reflexivity
    | discriminate].
Defined.

(** X3. A description meta tag with an empty value is passed over: the
    result is that of the state-blob and bio-element strategies. *)
Theorem empty_meta_description_skipped (pre post : jsstring) (t : MetaTag) :
  descriptionTag t = true ->
  firstMatch metaDescFlags metaDescPattern (pre ++ metaTagText t ++ post)
  = Some (length pre) ->
  viaJsonLd (pre ++ metaTagText t ++ post) = Normal ->
  content t = [] ->
  extractBioFromHtml (pre ++ metaTagText t ++ post) =
  (viaSigiState (pre ++ metaTagText t ++ post) ;;
   viaBioElement (pre ++ metaTagText t ++ post) ;;
   Return VNull).
Proof.
  intros Ht Hfirst Hld He.
  unfold extractBioFromHtml, viaMetaDescription.
  rewrite Hld, (meta_exec _ _ _ Ht Hfirst).
  unfold capture. cbn [group1 seqc]. rewrite He. reflexivity.
Qed.

Lemma empty_meta_description_skipped_witness :
  extractBioFromHtml (charsetThenDescription [])
  = Return (VString (str "Element bio")).
Proof.
  unfold charsetThenDescription.
  rewrite (@empty_meta_description_skipped (str "<head><meta charset=utf-8>")
             (str "<div data-e2e=" ++ dq ++ str "user-bio" ++ dq ++ str ">Element bio</div>")
             (shoutedTag []));
    vm_compute; reflexivity.
Defined.

(* ================================================================== *)
(** * The state blob that [extractBioFromHtml] reads *)
(* ================================================================== *)

Lemma sigiPattern_parts :
  sigiPattern =
  Seq (lit sigiTarget)
    (Seq (Star Space)
       (Seq (lit (str "="))
          (Seq (Star Space)
             (Seq (Group (Seq (lit (str "{"))
                            (Seq (LazyStar Dot) (Seq (lit (str "}")) Empty))))
                (Seq (lit (str ";")) Empty))))).
Proof. reflexivity. Qed.

Lemma startsWith_app_split (p q z : jsstring) :
  startsWith (p ++ q) z = startsWith p z && startsWith q (skipn (length p) z).
Proof.
  revert z; induction p as [|c p IH]; intros z; [reflexivity|].
  destruct z as [|d z]; cbn [app startsWith length skipn].
  - reflexivity.
  - rewrite IH. now rewrite andb_assoc.
Qed.

Lemma matcher_group (fl : flags) (r : regex) (k : Continuation) (x : jsstring) cap :
  matcher fl (Group r) k x cap =
  matcher fl r (fun y _ => k y (Some (firstn (length x - length y) x))) x cap.
Proof. reflexivity. Qed.

Lemma matcher_empty (fl : flags) (k : Continuation) (x : jsstring) cap :
  matcher fl Empty k x cap = k x cap.
Proof. reflexivity. Qed.

Lemma matcher_lazy (fl : flags) (a : atom) (k : Continuation) (x : jsstring) cap :
  matcher fl (LazyStar a) k x cap = starLazy fl a k x cap.
Proof. reflexivity. Qed.

(** At an assignment the pattern matches, and the group runs from the
    brace to the first closing brace that a semicolon follows. *)
Lemma sigi_matchHere (ws1 ws2 inner post : jsstring) :
  forallb isWhiteSpace ws1 = true ->
  forallb isWhiteSpace ws2 = true ->
  indexOf sigiClose (inner ++ sigiClose ++ post) = Some (length inner) ->
  matchHere sigiFlags sigiPattern (sigiAssignment ws1 ws2 inner ++ post)
  = Some (mkMatch post (Some (str "{" ++ inner ++ str "}"))).
Proof.
  intros H1 H2 Hclose.
  destruct (indexOf_first _ _ Hclose) as [Hinside _].
  assert (Hi : ignoreCase sigiFlags = false) by reflexivity.
  unfold sigiAssignment. rewrite <- !app_assoc.
  unfold matchHere. rewrite sigiPattern_parts.
  rewrite matcher_seq, matcher_lit by exact Hi.
  rewrite startsWith_app, skipn_length_app.
  rewrite matcher_seq, matcher_star.
  apply starGreedy_run; [exact H1 | reflexivity |].
  rewrite matcher_seq, matcher_lit by exact Hi.
  rewrite startsWith_app, skipn_length_app.
  rewrite matcher_seq, matcher_star.
  apply starGreedy_run; [exact H2 | reflexivity |].
  rewrite matcher_seq, matcher_group, matcher_seq, matcher_lit by exact Hi.
  rewrite startsWith_app, skipn_length_app.
  rewrite matcher_seq, matcher_lazy.
  apply starLazy_first.
  - apply forallb_forall. intros c _. reflexivity.
  - intros i Hlt.
    rewrite matcher_seq, matcher_lit by exact Hi.
    destruct (startsWith (str "}") (skipn i (inner ++ sigiClose ++ post))) eqn:E1;
      [|reflexivity].
    rewrite matcher_empty. cbv beta. rewrite matcher_seq, matcher_lit by exact Hi.
    destruct (startsWith (str ";")
                (skipn (length (str "}")) (skipn i (inner ++ sigiClose ++ post))))
      eqn:E2; [|reflexivity].
    exfalso. specialize (Hinside i Hlt).
    change sigiClose with (str "}" ++ str ";") in Hinside at 1.
    rewrite startsWith_app_split, E1, E2 in Hinside. discriminate.
  - change (sigiClose ++ post) with (str "}" ++ str ";" ++ post).
    rewrite matcher_seq, matcher_lit by exact Hi.
    rewrite startsWith_app, skipn_length_app.
    rewrite matcher_empty. cbv beta. rewrite matcher_seq, matcher_lit by exact Hi.
    rewrite startsWith_app, skipn_length_app.
    rewrite matcher_empty. unfold accept.
    replace (str "{" ++ inner ++ str "}" ++ str ";" ++ post)
      with ((str "{" ++ inner ++ str "}") ++ str ";" ++ post)
      by (now rewrite <- !app_assoc).
    now rewrite firstn_app_minus.
Qed.

(** X4. The text handed to [JSON.parse] by the state-blob strategy runs
    from the brace after the first [SIGI_STATE] assignment to the first
    closing brace followed by a semicolon, wherever that is; when this
    text is not JSON, for instance because the blob was cut inside a
    string, the strategy yields nothing. *)
Theorem sigi_blob_ends_at_first_close (pre ws1 ws2 inner post : jsstring) :
  indexOf sigiTarget (pre ++ sigiAssignment ws1 ws2 inner ++ post) = Some (length pre) ->
  forallb isWhiteSpace ws1 = true ->
  forallb isWhiteSpace ws2 = true ->
  indexOf sigiClose (inner ++ sigiClose ++ post) = Some (length inner) ->
  exec sigiFlags sigiPattern (pre ++ sigiAssignment ws1 ws2 inner ++ post)
  = Some (mkMatch post (Some (str "{" ++ inner ++ str "}")))
  /\ (forall e, JSON_parse (str "{" ++ inner ++ str "}") = Err e ->
      viaSigiState (pre ++ sigiAssignment ws1 ws2 inner ++ post) = Normal).
Proof.
  intros Hfirst H1 H2 Hclose.
  destruct (indexOf_first _ _ Hfirst) as [Hbefore _].
  assert (Hexec : exec sigiFlags sigiPattern (pre ++ sigiAssignment ws1 ws2 inner ++ post)
                  = Some (mkMatch post (Some (str "{" ++ inner ++ str "}")))).
  { apply exec_first with (n := length pre).
    - intros i Hlt. unfold matchHere. rewrite sigiPattern_parts.
      rewrite matcher_seq, matcher_lit by reflexivity.
      now rewrite (Hbefore i Hlt).
    - rewrite skipn_length_app. now apply sigi_matchHere. }
  split; [exact Hexec|].
  intros e He. unfold viaSigiState. rewrite Hexec. cbn [group1 textOf].
  now rewrite He.
Qed.

Lemma sigi_blob_ends_at_first_close_witness :
  option_map group1 (exec sigiFlags sigiPattern braceInSignaturePage)
  = Some (Some (json "{'UserPage':{'user':{'signature':'a}"))
  /\ extractBioFromHtml braceInSignaturePage = Return VNull.
Proof.
  destruct (@sigi_blob_ends_at_first_close (str "<script>") [] (str " ")
              (json "'UserPage':{'user':{'signature':'a") (json "b'}}};</script>"))
    as [Hexec Hnormal]; try (vm_compute; reflexivity).
  split.
  - change braceInSignaturePage
      with (str "<script>" ++
            sigiAssignment [] (str " ") (json "'UserPage':{'user':{'signature':'a")
            ++ json "b'}}};</script>").
    rewrite Hexec. reflexivity.
  - vm_compute. reflexivity.
Defined.

(* ================================================================== *)
(** * Further properties of [findUserInSigiState] *)
(* ================================================================== *)

(** X5. [findUserInSigiState] returns [null] for anything that is not an
    object ([null] and [undefined] included, where reading a member
    throws), and for a state that has neither a users table with a key nor
    a page user. *)
Theorem findUserInSigiState_null (sigiState : value) :
  (forall props, sigiState <> VObject props)
  \/ (NoUsersTable sigiState /\ NoPageUser sigiState) ->
  findUserInSigiState sigiState = Return VNull.
Proof.
  intros [Hprim | [[um [Hum Hno]] [up [Hup Hpage]]]].
  - destruct sigiState; try reflexivity.
    exfalso. now apply (Hprim props).
  - unfold findUserInSigiState, member. rewrite Hum, Hup.
    assert (Hfirst :
      (let* c := andAlso (Ok um) (getProp um (str "users")) in
       if ToBoolean c then
         let* users := getProp um (str "users") in
         let* userKeys := Object_keys users in
         match userKeys with
         | first :: _ => let* user := getProp users first in Return user
         | [] => Normal
         end
       else Normal) = Normal).
    { destruct Hno as [Fum | [users [Hus [Fus | Hk]]]].
      - rewrite (@andAlso_falsy _ _ Fum). cbn [bindc]. now rewrite Fum.
      - destruct (ToBoolean um) eqn:Tum.
        + rewrite (@andAlso_truthy _ _ Tum), Hus. cbn [bindc]. now rewrite Fus.
        + rewrite (@andAlso_falsy _ _ Tum). cbn [bindc]. now rewrite Tum.
      - destruct (ToBoolean um) eqn:Tum.
        + rewrite (@andAlso_truthy _ _ Tum), Hus. cbn [bindc].
          destruct (ToBoolean users); [|reflexivity]. now rewrite Hk.
        + rewrite (@andAlso_falsy _ _ Tum). cbn [bindc]. now rewrite Tum. }
    rewrite Hfirst. cbn [seqc].
    destruct Hpage as [Fup | [u [Hu Fu]]].
    + rewrite (@andAlso_falsy _ _ Fup). cbn [bindc]. now rewrite Fup.
    + destruct (ToBoolean up) eqn:Tup.
      * rewrite (@andAlso_truthy _ _ Tup), Hu. cbn [bindc]. now rewrite Fu.
      * rewrite (@andAlso_falsy _ _ Tup). cbn [bindc]. now rewrite Tup.
Qed.

Lemma findUserInSigiState_null_witness :
  findUserInSigiState (VArray [VObject [(str "UserPage", VNull)]]) = Return VNull
  /\ findUserInSigiState
       (VObject [(str "UserModule", VObject [(str "users", VObject [])]);
                 (str "ItemModule", VObject [])]) = Return VNull.
Proof.
  split.
  - apply findUserInSigiState_null. left. intros props. discriminate.
  - apply findUserInSigiState_null. right. split.
    + exists (VObject [(str "users", VObject [])]). split; [vm_compute; reflexivity|].
      right. exists (VObject []). split; [vm_compute; reflexivity|].
      right. vm_compute. reflexivity.
    + exists VUndefined. split; [vm_compute; reflexivity|]. left. reflexivity.
Defined.

(** X6. When [UserModule.users] is truthy and has a key, the result is the
    value under its first key, whatever that value is ([null] included)
    and whatever [UserPage] holds. *)
Theorem users_table_entry_first
    (sigiState userModule users user : value) (first : jsstring) (others : list jsstring) :
  getProp sigiState (str "UserModule") = Ok userModule ->
  ToBoolean userModule = true ->
  getProp userModule (str "users") = Ok users ->
  ToBoolean users = true ->
  Object_keys users = Ok (first :: others) ->
  getProp users first = Ok user ->
  findUserInSigiState sigiState = Return user.
Proof.
  intros H1 H2 H3 H4 H5 H6.
  apply findUserInSigiState_selected.
  exact (FirstOfUsersTable _ H1 H2 H3 H4 H5 H6).
Qed.

Lemma users_table_entry_first_witness :
  findUserInSigiState nullEntryState = Return VNull.
Proof.
  apply (@users_table_entry_first nullEntryState
           (VObject [(str "users", VObject [(str "ghost", VNull)])])
           (VObject [(str "ghost", VNull)]) VNull (str "ghost") []);
    vm_compute; reflexivity.
Defined.

(* ================================================================== *)
(** * Facts about [trim] and about tag stripping *)
(* ================================================================== *)

Lemma trimStart_split (s : jsstring) :
  exists l, s = l ++ trimStart s /\ forallb isWhiteSpace l = true.
Proof.
  induction s as [|c s (l & E & Hl)].
  - now exists [].
  - cbn [trimStart]. destruct (isWhiteSpace c) eqn:Ec.
    + exists (c :: l). split; [cbn [app]; now f_equal|].
      cbn [forallb]. now rewrite Ec.
    + now exists [].
Qed.

Lemma trimStart_startsClean (s : jsstring) : startsClean (trimStart s) = true.
Proof.
  induction s as [|c s IH]; [reflexivity|].
  cbn [trimStart]. destruct (isWhiteSpace c) eqn:Ec; [exact IH|].
  cbn [startsClean]. now rewrite Ec.
Qed.

Lemma trimStart_keeps_tail (l : jsstring) (c : codeUnit) (r : jsstring) :
  isWhiteSpace c = false ->
  trimStart (l ++ c :: r) = trimStart l ++ c :: r.
Proof.
  intros Hc. induction l as [|d l IH]; cbn [app trimStart].
  - now rewrite Hc.
  - destruct (isWhiteSpace d); [exact IH | reflexivity].
Qed.

Lemma trimEnd_cons (c : codeUnit) (s : jsstring) :
  isWhiteSpace c = false -> trimEnd (c :: s) = c :: trimEnd s.
Proof.
  intros Hc. unfold trimEnd. cbn [rev].
  rewrite trimStart_keeps_tail by exact Hc. rewrite rev_app_distr. reflexivity.
Qed.

Lemma trimEnd_split (s : jsstring) :
  exists r, s = trimEnd s ++ r /\ forallb isWhiteSpace r = true.
Proof.
  unfold trimEnd. destruct (trimStart_split (rev s)) as (l & E & Hl).
  exists (rev l). split.
  - rewrite <- (rev_involutive s) at 1. rewrite E at 1. apply rev_app_distr.
  - rewrite forallb_forall in *. intros x Hx. apply Hl. now apply in_rev.
Qed.

(** [trim] removes white space from the two ends and nothing else. *)
Lemma trim_split (s : jsstring) :
  exists l r, s = l ++ trim s ++ r
    /\ forallb isWhiteSpace l = true /\ forallb isWhiteSpace r = true.
Proof.
  destruct (trimStart_split s) as (l & El & Hl).
  destruct (trimEnd_split (trimStart s)) as (r & Er & Hr).
  exists l, r. unfold trim. split; [|now split].
  rewrite El at 1. now rewrite Er at 1.
Qed.

Lemma trim_trimmed (s : jsstring) : trimmed (trim s) = true.
Proof.
  unfold trimmed, trim. apply andb_true_iff. split.
  - pose proof (trimStart_startsClean s) as H.
    destruct (trimStart s) as [|c t]; [reflexivity|].
    cbn [startsClean] in H. apply negb_true_iff in H.
    rewrite trimEnd_cons by exact H. cbn [startsClean]. now rewrite H.
  - unfold trimEnd. rewrite rev_involutive. apply trimStart_startsClean.
Qed.

Lemma afterGt_none (y : jsstring) :
  afterGt y = None <-> existsb (N.eqb gt) y = false.
Proof.
  induction y as [|c y IH]; cbn [afterGt existsb]; [tauto|].
  destruct (N.eqb gt c); cbn [orb]; [split; discriminate | exact IH].
Qed.

Lemma afterGt_some (y r : jsstring) :
  afterGt y = Some r -> exists a, y = a ++ gt :: r.
Proof.
  induction y as [|c y IH]; cbn [afterGt]; [discriminate|].
  destruct (N.eqb gt c) eqn:Ec.
  - intros H. injection H as <-. apply N.eqb_eq in Ec. subst c. now exists [].
  - intros H. destruct (IH H) as [a ->]. now exists (c :: a).
Qed.

(** After a [<] the tag pattern runs to the first [>]. *)
Lemma tag_starGreedy (y : jsstring) cap :
  starGreedy tagFlags (NotChr gt)
    (matcher tagFlags (Seq (lit [gt]) Empty) accept) y cap
  = option_map (fun r => mkMatch r cap) (afterGt y).
Proof.
  induction y as [|c y IH]; [reflexivity|].
  cbn [starGreedy afterGt atomMatches].
  rewrite !canonicalize_exact by reflexivity.
  destruct (N.eqb gt c) eqn:Ec; cbn [negb].
  - rewrite matcher_seq, matcher_lit by reflexivity.
    cbn [startsWith]. rewrite Ec. reflexivity.
  - rewrite IH. destruct (afterGt y); [reflexivity|].
    rewrite matcher_seq, matcher_lit by reflexivity.
    cbn [startsWith option_map]. now rewrite Ec.
Qed.

Lemma tag_matchHere (x : jsstring) :
  matchHere tagFlags tagPattern x =
  match x with
  | c :: y => if N.eqb 60 c then option_map (fun r => mkMatch r None) (afterGt y)
              else None
  | [] => None
  end.
Proof.
  unfold matchHere.
  change tagPattern with
    (Seq (lit (str "<")) (Seq (Star (NotChr gt)) (Seq (lit [gt]) Empty))).
  rewrite matcher_seq, matcher_lit by reflexivity.
  destruct x as [|c y]; [reflexivity|].
  change (startsWith (str "<") (c :: y)) with (N.eqb 60 c && true).
  rewrite andb_true_r. destruct (N.eqb 60 c); [|reflexivity].
  change (skipn (length (str "<")) (c :: y)) with y.
  rewrite matcher_seq, matcher_star. apply tag_starGreedy.
Qed.

Lemma hasTag_exec (s : jsstring) :
  hasTag s = false <-> exec tagFlags tagPattern s = None.
Proof.
  induction s as [|c s IH]; cbn [hasTag exec].
  - rewrite tag_matchHere. tauto.
  - rewrite tag_matchHere, orb_false_iff.
    destruct (N.eqb 60 c); cbn [andb].
    + rewrite <- afterGt_none.
      destruct (afterGt s); cbn [option_map].
      * split; [intros [H _]; discriminate | discriminate].
      * rewrite IH. tauto.
    + rewrite IH. tauto.
Qed.

Lemma removeMatches_skip (fl : flags) (r : regex) (a x : jsstring) :
  removeMatches fl r (length a) (a ++ x) = removeMatches fl r 0 x.
Proof. induction a as [|c a IH]; [reflexivity | exact IH]. Qed.

Lemma existsb_gt_hasTag (s : jsstring) :
  existsb (N.eqb gt) s = false -> hasTag s = false.
Proof.
  induction s as [|c s IH]; [reflexivity|].
  cbn [existsb hasTag]. intros H. apply orb_false_iff in H as [_ H].
  rewrite H, (IH H). now rewrite andb_false_r.
Qed.

(** Text in which no [<] has a [>] after it is left as it is. *)
Lemma removeMatches_untouched (s : jsstring) :
  hasTag s = false -> removeMatches tagFlags tagPattern 0 s = s.
Proof.
  induction s as [|c s IH]; [reflexivity|].
  cbn [hasTag removeMatches]. intros H. apply orb_false_iff in H as [Hc Hs].
  rewrite tag_matchHere.
  destruct (N.eqb 60 c); cbn [andb] in Hc.
  - apply afterGt_none in Hc. rewrite Hc. cbn [option_map]. now rewrite (IH Hs).
  - now rewrite (IH Hs).
Qed.

(** What is left after stripping holds no tag. *)
Lemma removeMatches_no_tag (s : jsstring) :
  hasTag (removeMatches tagFlags tagPattern 0 s) = false.
Proof.
  remember (length s) as n eqn:Hn.
  assert (Hle : length s <= n) by lia. clear Hn.
  revert s Hle. induction n as [|n IH]; intros s Hle.
  - destruct s; [reflexivity | cbn [length] in Hle; lia].
  - destruct s as [|c s]; [reflexivity|].
    cbn [length] in Hle. cbn [removeMatches]. rewrite tag_matchHere.
    destruct (N.eqb 60 c) eqn:Ec.
    + destruct (afterGt s) as [r|] eqn:Er; cbn [option_map].
      * apply afterGt_some in Er. destruct Er as [a ->].
        cbn [rest].
        replace (length (c :: a ++ gt :: r) - length r) with (S (length (a ++ [gt])))
          by (cbn [length]; rewrite !length_app; cbn [length]; lia).
        replace (a ++ gt :: r) with ((a ++ [gt]) ++ r) by (now rewrite <- app_assoc).
        rewrite removeMatches_skip. apply IH.
        rewrite length_app in Hle. cbn [length] in Hle. lia.
      * apply afterGt_none in Er.
        rewrite removeMatches_untouched by (apply existsb_gt_hasTag; exact Er).
        cbn [hasTag]. rewrite Er, andb_false_r. cbn [orb].
        now apply existsb_gt_hasTag.
    + cbn [hasTag]. rewrite Ec. cbn [andb orb]. apply IH. lia.
Qed.

Lemma hasTag_suffix (l x : jsstring) : hasTag (l ++ x) = false -> hasTag x = false.
Proof.
  induction l as [|c l IH]; [auto|].
  cbn [app hasTag]. intros H. apply orb_false_iff in H as [_ H]. now apply IH.
Qed.

Lemma hasTag_prefix (x r : jsstring) : hasTag (x ++ r) = false -> hasTag x = false.
Proof.
  induction x as [|c x IH]; [reflexivity|].
  cbn [app hasTag]. intros H. apply orb_false_iff in H as [Hc H].
  rewrite (IH H), orb_false_r.
  destruct (N.eqb 60 c); [|reflexivity]. cbn [andb] in *.
  rewrite existsb_app in Hc. now apply orb_false_iff in Hc as [Hc _].
Qed.

Lemma trim_no_tag (s : jsstring) : hasTag s = false -> hasTag (trim s) = false.
Proof.
  intros H. destruct (trim_split s) as (l & r & E & _ & _).
  rewrite E in H. apply hasTag_suffix in H. now apply hasTag_prefix in H.
Qed.

(* ================================================================== *)
(** * Properties of the bio element strategy and of the cleaned username *)
(* ================================================================== *)

Lemma viaBioElement_result (html : jsstring) (v : value) :
  viaBioElement html = Return v ->
  exists s, v = VString s /\ s <> [] /\ trimmed s = true
            /\ exec tagFlags tagPattern s = None.
Proof.
  unfold viaBioElement.
  destruct (exec bioElementFlags bioElementPattern html) as [m|]; [|discriminate].
  destruct (ToBoolean (capture m)); [|discriminate].
  remember (removeMatches tagFlags tagPattern 0 (textOf (group1 m))) as stripped
    eqn:Hs.
  destruct (trim stripped) as [|c t] eqn:Et; cbn [ToBoolean]; [discriminate|].
  intros H. injection H as <-. exists (c :: t).
  split; [reflexivity|]. split; [discriminate|].
  rewrite <- Et. split; [apply trim_trimmed|].
  apply hasTag_exec, trim_no_tag. subst stripped. apply removeMatches_no_tag.
Qed.

(** X7. When the first three strategies yield nothing, the result of
    [extractBioFromHtml] is [null] or a string that is not empty, has no
    white space at either end, and in which the tag pattern no longer
    matches. *)
Theorem bio_element_result (html : jsstring) (v : value) :
  viaJsonLd html = Normal ->
  viaMetaDescription html = Normal ->
  viaSigiState html = Normal ->
  extractBioFromHtml html = Return v ->
  v = VNull
  \/ exists s, v = VString s /\ s <> [] /\ trimmed s = true
               /\ exec tagFlags tagPattern s = None.
Proof.
  intros H1 H2 H3. unfold extractBioFromHtml. rewrite H1, H2, H3. cbn [seqc].
  destruct (viaBioElement html) as [|u|e] eqn:E; cbn [seqc]; intros H.
  - left. now injection H as <-.
  - right. injection H as <-. now apply viaBioElement_result with (html := html).
  - discriminate.
Qed.

Lemma bio_element_result_witness :
  extractBioFromHtml markupBioPage = Return (VString (str "Hi there 1 < 2"))
  /\ trimmed (str "Hi there 1 < 2") = true
  /\ exec tagFlags tagPattern (str "Hi there 1 < 2") = None.
Proof.
  assert (E : extractBioFromHtml markupBioPage = Return (VString (str "Hi there 1 < 2")))
    by (vm_compute; reflexivity).
  split; [exact E|].
  destruct (@bio_element_result markupBioPage (VString (str "Hi there 1 < 2")))
    as [Hnull | (s & Hs & _ & Ht & Hx)];
    [vm_compute; reflexivity | vm_compute; reflexivity | vm_compute; reflexivity
    | exact E | discriminate | ].
  injection Hs as <-. now split.
Defined.

(** X8. Deleting the tags leaves a text in which the tag pattern matches
    nowhere, so deleting again changes nothing; and a text in which it
    matches nowhere, an unclosed [<] included, comes back unchanged. *)
Theorem tag_stripping_settles (s : jsstring) :
  exec tagFlags tagPattern (removeMatches tagFlags tagPattern 0 s) = None
  /\ removeMatches tagFlags tagPattern 0 (removeMatches tagFlags tagPattern 0 s)
     = removeMatches tagFlags tagPattern 0 s
  /\ (exec tagFlags tagPattern s = None -> removeMatches tagFlags tagPattern 0 s = s).
Proof.
  split; [|split].
  - apply hasTag_exec, removeMatches_no_tag.
  - apply removeMatches_untouched, removeMatches_no_tag.
  - intros H. now apply removeMatches_untouched, hasTag_exec.
Qed.

Lemma tag_stripping_settles_witness :
  removeMatches tagFlags tagPattern 0 (str "1 < 2 and 3 <") = str "1 < 2 and 3 <".
Proof.
  apply (tag_stripping_settles (str "1 < 2 and 3 <")). vm_compute. reflexivity.
Defined.

Lemma count_at_blank (l : jsstring) :
  forallb isWhiteSpace l = true -> count_occ N.eq_dec l 64%N = 0.
Proof.
  induction l as [|c l IH]; [reflexivity|].
  cbn [forallb count_occ]. intros H. apply andb_true_iff in H as [Hc H].
  destruct (N.eq_dec c 64) as [->|_]; [discriminate | now apply IH].
Qed.

Lemma count_at_replaceFirst (s : jsstring) :
  count_occ N.eq_dec (replaceFirst (str "@") [] s) 64%N
  = pred (count_occ N.eq_dec s 64%N).
Proof.
  induction s as [|c s IH]; [reflexivity|].
  change (replaceFirst (str "@") [] (c :: s))
    with (if N.eqb 64 c && true then skipn 1 (c :: s)
          else c :: replaceFirst (str "@") [] s).
  rewrite andb_true_r. cbn [count_occ skipn].
  destruct (N.eqb 64 c) eqn:Ec.
  - apply N.eqb_eq in Ec. subst c.
    destruct (N.eq_dec 64 64) as [_|H]; [reflexivity | congruence].
  - apply N.eqb_neq in Ec. cbn [count_occ].
    destruct (N.eq_dec c 64) as [->|_]; [congruence | exact IH].
Qed.

Lemma replaceFirst_length (s : jsstring) :
  length (replaceFirst (str "@") [] s) <= length s.
Proof.
  induction s as [|c s IH]; [reflexivity|].
  change (replaceFirst (str "@") [] (c :: s))
    with (if N.eqb 64 c && true then skipn 1 (c :: s)
          else c :: replaceFirst (str "@") [] s).
  destruct (N.eqb 64 c && true); cbn [skipn length]; lia.
Qed.

(** X9. The cleaned username has no white space at either end, holds one
    [@] fewer than the username received when that has any (a second [@]
    stays), and is never longer than it. *)
Theorem cleanUsernameOf_shape (username : jsstring) :
  trimmed (cleanUsernameOf username) = true
  /\ count_occ N.eq_dec (cleanUsernameOf username) 64%N
     = pred (count_occ N.eq_dec username 64%N)
  /\ length (cleanUsernameOf username) <= length username.
Proof.
  unfold cleanUsernameOf.
  destruct (trim_split (replaceFirst (str "@") [] username)) as (l & r & E & Hl & Hr).
  split; [apply trim_trimmed|]. split.
  - rewrite <- count_at_replaceFirst. rewrite E at 2.
    rewrite !count_occ_app.
    pose proof (count_at_blank _ Hl) as Cl. pose proof (count_at_blank _ Hr) as Cr.
    unfold jsstring, codeUnit in *. lia.
  - pose proof (replaceFirst_length username) as Hlen.
    rewrite E in Hlen. rewrite !length_app in Hlen. lia.
Qed.

(* ================================================================== *)
(** * Further properties of the fetcher and of the retry loop *)
(* ================================================================== *)

Lemma extractBioFromHtml_null_or_truthy (html : jsstring) :
  exists v, extractBioFromHtml html = Return v /\ (v = VNull \/ ToBoolean v = true).
Proof.
  unfold extractBioFromHtml.
  destruct (viaJsonLd_settles html) as [-> | (v & -> & T)]; [|simpl; eauto].
  destruct (viaMetaDescription_settles html) as [-> | (v & -> & T)]; [|simpl; eauto].
  destruct (viaSigiState_settles html) as [-> | (v & -> & T)]; [|simpl; eauto].
  destruct (viaBioElement_settles html) as [-> | (v & -> & T)]; simpl; eauto.
Qed.

(** X10. [scrapeTikTokBio] returns a value exactly when the response has a
    success status and a readable body, and the value is then what
    [extractBioFromHtml] returns on that body; every other outcome is an
    error. A returned value is [null] or truthy. *)
Theorem scrapeTikTokBio_returns_iff (username : jsstring) (w : World) (v : value) :
  (fst (scrapeTikTokBio username w) = Ok v
   <-> exists response html,
         network w (fetched w) = Resolved response
         /\ ok response = true
         /\ text response = Ok html
         /\ extractBioFromHtml html = Return v)
  /\ (fst (scrapeTikTokBio username w) = Ok v -> v = VNull \/ ToBoolean v = true).
Proof.
  assert (Hiff : fst (scrapeTikTokBio username w) = Ok v
                 <-> exists response html,
                       network w (fetched w) = Resolved response
                       /\ ok response = true
                       /\ text response = Ok html
                       /\ extractBioFromHtml html = Return v).
  { unfold scrapeTikTokBio, fetch. cbn [fst]. unfold classify. split.
    - destruct (network w (fetched w)) as [response|e]; [|discriminate].
      destruct (ok response) eqn:Hok; cbn [negb].
      + destruct (text response) as [html|e] eqn:Ht; [|discriminate].
        intros H. exists response, html. repeat split; auto.
        destruct (extractBioFromHtml_null_or_truthy html) as (u & Hu & _).
        rewrite Hu in *. cbn [callResult] in H. congruence.
      + destruct (N.eqb (status response) 404); [discriminate|].
        destruct (N.eqb (status response) 403); discriminate.
    - intros (response & html & -> & Hok & Ht & He).
      now rewrite Hok, Ht, He. }
  split; [exact Hiff|].
  intros H. apply Hiff in H. destruct H as (response & html & _ & _ & _ & He).
  destruct (extractBioFromHtml_null_or_truthy html) as (u & Hu & Hor).
  congruence.
Qed.

Section MoreRetryFacts.

Variable toLowerCase : jsstring -> jsstring.

(** A turn whose scraped value is truthy but cannot be lower-cased, or
    whose code cannot, ends like a failed request with a TypeError. *)
Lemma attemptBody_type_error (username : jsstring) (code v : value) (attempt : N)
    (w : World) :
  classify username (network w (fetched w)) = Ok v ->
  ToBoolean v = true ->
  notString v \/ notString code ->
  attemptBody toLowerCase username code attempt w =
  if N.eqb attempt maxRetries then (Throw ErrType, fetchedOnce username w)
  else (Normal, sleep (1000 * attempt) (fetchedOnce username w)).
Proof.
  intros H T Hns. unfold attemptBody, scrapeTikTokBio, fetch. rewrite H, T.
  destruct v; try reflexivity.
  destruct code; try reflexivity.
  exfalso. destruct Hns as [Hns | Hns]; eapply Hns; reflexivity.
Qed.

(** The four ways one turn of the loop can end. *)
Lemma attemptBody_shape (username : jsstring) (code : value) (attempt : N) (w : World) :
  (exists b, attemptBody toLowerCase username code attempt w
             = (Return (VBool b), fetchedOnce username w))
  \/ (exists e, N.eqb attempt maxRetries = true
        /\ attemptBody toLowerCase username code attempt w
           = (Throw e, fetchedOnce username w))
  \/ (N.eqb attempt maxRetries = false
      /\ attemptBody toLowerCase username code attempt w
         = (Normal, sleep (1000 * attempt) (fetchedOnce username w)))
  \/ attemptBody toLowerCase username code attempt w
     = (Normal, if N.ltb attempt maxRetries
                then sleep (2000 * attempt) (fetchedOnce username w)
                else fetchedOnce username w).
Proof.
  assert (Hthrown : forall e,
            attemptBody toLowerCase username code attempt w =
            (if N.eqb attempt maxRetries then (Throw e, fetchedOnce username w)
             else (Normal, sleep (1000 * attempt) (fetchedOnce username w))) ->
            (exists b, attemptBody toLowerCase username code attempt w
                       = (Return (VBool b), fetchedOnce username w))
            \/ (exists e, N.eqb attempt maxRetries = true
                  /\ attemptBody toLowerCase username code attempt w
                     = (Throw e, fetchedOnce username w))
            \/ (N.eqb attempt maxRetries = false
                /\ attemptBody toLowerCase username code attempt w
                   = (Normal, sleep (1000 * attempt) (fetchedOnce username w)))
            \/ attemptBody toLowerCase username code attempt w
               = (Normal, if N.ltb attempt maxRetries
                          then sleep (2000 * attempt) (fetchedOnce username w)
                          else fetchedOnce username w)).
  { intros e ->. destruct (N.eqb attempt maxRetries); eauto. }
  destruct (classify username (network w (fetched w))) as [v|e] eqn:Hc.
  - destruct (ToBoolean v) eqn:Tv.
    + assert (Hcases : notString v \/ notString code
                       \/ exists bio c, v = VString bio /\ code = VString c).
      { destruct v; try (left; intros s0; discriminate).
        destruct code; try (right; left; intros s0; discriminate).
        right. right. eauto. }
      destruct Hcases as [Hn | [Hn | (bio & c & -> & ->)]].
      * apply (Hthrown ErrType). apply attemptBody_type_error with (v := v); auto.
      * apply (Hthrown ErrType). apply attemptBody_type_error with (v := v); auto.
      * left. exists (codeFound toLowerCase bio c).
        apply attemptBody_bio; [exact Hc|].
        destruct bio; [discriminate | discriminate].
    + right. right. right. now apply attemptBody_no_bio with (v := v).
  - apply (Hthrown e). now apply attemptBody_error.
Qed.

(** The runs of [checkTikTokBio]: the result is a boolean or an error, and
    the effects are one, two or three requests with a sleep between two
    consecutive ones. *)
Lemma checkTikTokBio_shape (username : jsstring) (code : value) (w : World) :
  exists evs,
    snd (checkTikTokBio toLowerCase username code w)
    = mkWorld (network w) (length (filter (fun e => match e with Fetch _ _ => true
                                                    | Sleep _ => false end) evs)
                           + fetched w)
              (trace w ++ evs) (clock w)
    /\ (evs = [profileRequest username]
        \/ (exists a, (a = 1000 \/ a = 2000)%N
              /\ evs = [profileRequest username; Sleep a; profileRequest username])
        \/ (exists a b, (a = 1000 \/ a = 2000)%N /\ (b = 2000 \/ b = 4000)%N
              /\ evs = [profileRequest username; Sleep a; profileRequest username;
                        Sleep b; profileRequest username]))
    /\ ((exists b, fst (checkTikTokBio toLowerCase username code w) = Return (VBool b))
        \/ (exists e, fst (checkTikTokBio toLowerCase username code w) = Throw e)).
Proof.
  unfold checkTikTokBio. rewrite attemptNumbers_eq. cbn [forAttempts].
  destruct (attemptBody_shape username code 1 w)
    as [[b ->] | [[e [He ->]] | [[_ ->] | ->]]];
    try (change (N.eqb 1 maxRetries) with false in He; discriminate);
    change (N.ltb 1 maxRetries) with true; cbv iota;
    change (1000 * 1)%N with 1000%N; change (2000 * 1)%N with 2000%N;
    try (exists [profileRequest username]; cbn [fst snd];
         split; [reflexivity|]; split; [now left | eauto]).
  - destruct (attemptBody_shape username code 2
                (sleep 1000 (fetchedOnce username w)))
      as [[b ->] | [[e [He ->]] | [[_ ->] | ->]]];
      try (change (N.eqb 2 maxRetries) with false in He; discriminate);
      change (N.ltb 2 maxRetries) with true; cbv iota;
      change (1000 * 2)%N with 2000%N; change (2000 * 2)%N with 4000%N;
      try (exists [profileRequest username; Sleep 1000; profileRequest username];
           cbn [fst snd]; split;
           [unfold sleep, fetchedOnce; cbn [network fetched trace clock];
            now rewrite <- !app_assoc|];
           split; [right; left; eauto | eauto]).
    + destruct (attemptBody_shape username code 3
                  (sleep 2000 (fetchedOnce username (sleep 1000 (fetchedOnce username w)))))
        as [[b ->] | [[e [_ ->]] | [[He ->] | ->]]];
        try (change (N.eqb 3 maxRetries) with true in He; discriminate);
        change (N.ltb 3 maxRetries) with false; cbv iota;
        (exists [profileRequest username; Sleep 1000; profileRequest username;
                 Sleep 2000; profileRequest username];
         cbn [fst snd]; split;
         [unfold sleep, fetchedOnce; cbn [network fetched trace clock];
          now rewrite <- !app_assoc|];
         split; [right; right; exists 1000%N, 2000%N; auto | eauto]).
    + destruct (attemptBody_shape username code 3
                  (sleep 4000 (fetchedOnce username (sleep 1000 (fetchedOnce username w)))))
        as [[b ->] | [[e [_ ->]] | [[He ->] | ->]]];
        try (change (N.eqb 3 maxRetries) with true in He; discriminate);
        change (N.ltb 3 maxRetries) with false; cbv iota;
        (exists [profileRequest username; Sleep 1000; profileRequest username;
                 Sleep 4000; profileRequest username];
         cbn [fst snd]; split;
         [unfold sleep, fetchedOnce; cbn [network fetched trace clock];
          now rewrite <- !app_assoc|];
         split; [right; right; exists 1000%N, 4000%N; auto | eauto]).
  - destruct (attemptBody_shape username code 2
                (sleep 2000 (fetchedOnce username w)))
      as [[b ->] | [[e [He ->]] | [[_ ->] | ->]]];
      try (change (N.eqb 2 maxRetries) with false in He; discriminate);
      change (N.ltb 2 maxRetries) with true; cbv iota;
      change (1000 * 2)%N with 2000%N; change (2000 * 2)%N with 4000%N;
      try (exists [profileRequest username; Sleep 2000; profileRequest username];
           cbn [fst snd]; split;
           [unfold sleep, fetchedOnce; cbn [network fetched trace clock];
            now rewrite <- !app_assoc|];
           split; [right; left; eauto | eauto]).
    + destruct (attemptBody_shape username code 3
                  (sleep 2000 (fetchedOnce username (sleep 2000 (fetchedOnce username w)))))
        as [[b ->] | [[e [_ ->]] | [[He ->] | ->]]];
        try (change (N.eqb 3 maxRetries) with true in He; discriminate);
        change (N.ltb 3 maxRetries) with false; cbv iota;
        (exists [profileRequest username; Sleep 2000; profileRequest username;
                 Sleep 2000; profileRequest username];
         cbn [fst snd]; split;
         [unfold sleep, fetchedOnce; cbn [network fetched trace clock];
          now rewrite <- !app_assoc|];
         split; [right; right; exists 2000%N, 2000%N; auto | eauto]).
    + destruct (attemptBody_shape username code 3
                  (sleep 4000 (fetchedOnce username (sleep 2000 (fetchedOnce username w)))))
        as [[b ->] | [[e [_ ->]] | [[He ->] | ->]]];
        try (change (N.eqb 3 maxRetries) with true in He; discriminate);
        change (N.ltb 3 maxRetries) with false; cbv iota;
        (exists [profileRequest username; Sleep 2000; profileRequest username;
                 Sleep 4000; profileRequest username];
         cbn [fst snd]; split;
         [unfold sleep, fetchedOnce; cbn [network fetched trace clock];
          now rewrite <- !app_assoc|];
         split; [right; right; exists 2000%N, 4000%N; auto | eauto]).
Qed.

End MoreRetryFacts.

Section RetryProperties.

Variable toLowerCase : jsstring -> jsstring.

(** X11. Whatever the network does and whatever the code is,
    [checkTikTokBio] makes one, two or three requests, each the same GET
    for the profile URL; it sleeps only between two requests (1000 or
    2000 ms after the first, 2000 or 4000 ms after the second) and never
    after the last, at most 6000 ms in all; it leaves the clock alone; and
    it returns a boolean or throws. *)
Theorem checkTikTokBio_bounded (username : jsstring) (code : value) (w : World) :
  exists evs,
    snd (checkTikTokBio toLowerCase username code w)
    = mkWorld (network w) (requestsIn evs + fetched w) (trace w ++ evs) (clock w)
    /\ (evs = [profileRequest username]
        \/ (exists a, (a = 1000 \/ a = 2000)%N
              /\ evs = [profileRequest username; Sleep a; profileRequest username])
        \/ (exists a b, (a = 1000 \/ a = 2000)%N /\ (b = 2000 \/ b = 4000)%N
              /\ evs = [profileRequest username; Sleep a; profileRequest username;
                        Sleep b; profileRequest username]))
    /\ 1 <= requestsIn evs <= 3
    /\ (sleptMs evs <= 6000)%N
    /\ ((exists b, fst (checkTikTokBio toLowerCase username code w) = Return (VBool b))
        \/ (exists e, fst (checkTikTokBio toLowerCase username code w) = Throw e)).
Proof.
  destruct (checkTikTokBio_shape toLowerCase username code w)
    as (evs & Hw & Hshape & Hres).
  exists evs. split; [exact Hw|]. split; [exact Hshape|].
  split; [|split; [|exact Hres]].
  - destruct Hshape as [-> | [(a & _ & ->) | (a & b & _ & _ & ->)]];
      cbn; lia.
  - destruct Hshape as [-> | [(a & Ha & ->) | (a & b & Ha & Hb & ->)]];
      cbn [sleptMs profileRequest]; lia.
Qed.

(** X12. Only the last attempt can surface an error. Two failed requests
    followed by a page without a bio give [false], not an error; two pages
    without a bio followed by a failed request throw that failure. *)
Theorem last_attempt_decides (username : jsstring) (code : value) (w : World) :
  (forall e1 e2 v3,
     classify username (network w (fetched w)) = Err e1 ->
     classify username (network w (1 + fetched w)) = Err e2 ->
     classify username (network w (2 + fetched w)) = Ok v3 ->
     ToBoolean v3 = false ->
     checkTikTokBio toLowerCase username code w =
     (Return (VBool false),
      mkWorld (network w) (3 + fetched w)
        (trace w ++ [profileRequest username; Sleep 1000;
                     profileRequest username; Sleep 2000;
                     profileRequest username])
        (clock w)))
  /\ (forall v1 v2 e3,
        classify username (network w (fetched w)) = Ok v1 -> ToBoolean v1 = false ->
        classify username (network w (1 + fetched w)) = Ok v2 -> ToBoolean v2 = false ->
        classify username (network w (2 + fetched w)) = Err e3 ->
        checkTikTokBio toLowerCase username code w =
        (Throw e3,
         mkWorld (network w) (3 + fetched w)
           (trace w ++ [profileRequest username; Sleep 2000;
                        profileRequest username; Sleep 4000;
                        profileRequest username])
           (clock w))).
Proof.
  split.
  - intros e1 e2 v3 H1 H2 H3 F3.
    unfold checkTikTokBio. rewrite attemptNumbers_eq. cbn [forAttempts].
    rewrite (@attemptBody_error toLowerCase username code 1 w e1 H1).
    change (N.eqb 1 maxRetries) with false. cbv iota.
    rewrite (@attemptBody_error toLowerCase username code 2 (sleep _ _) e2) by exact H2.
    change (N.eqb 2 maxRetries) with false. cbv iota.
    rewrite (@attemptBody_no_bio toLowerCase username code 3 (sleep _ _) v3)
      by assumption.
    change (N.ltb 3 maxRetries) with false. cbv iota.
    unfold sleep, fetchedOnce; cbn [network fetched trace clock].
    rewrite <- !app_assoc. reflexivity.
  - intros v1 v2 e3 H1 F1 H2 F2 H3.
    unfold checkTikTokBio. rewrite attemptNumbers_eq. cbn [forAttempts].
    rewrite (@attemptBody_no_bio toLowerCase username code 1 w v1 H1 F1).
    change (N.ltb 1 maxRetries) with true. cbv iota.
    rewrite (@attemptBody_no_bio toLowerCase username code 2 (sleep _ _) v2)
      by assumption.
    change (N.ltb 2 maxRetries) with true. cbv iota.
    rewrite (@attemptBody_error toLowerCase username code 3 (sleep _ _) e3) by exact H3.
    change (N.eqb 3 maxRetries) with true. cbv iota.
    unfold sleep, fetchedOnce; cbn [network fetched trace clock].
    rewrite <- !app_assoc. reflexivity.
Qed.

(** X13. A scraped value that is truthy but not a string (a JSON-LD
    description that is a number, say), or a code that is not a string
    beside a bio, is no verdict: the attempt fails with a TypeError like a
    failed request, and three such attempts throw it after sleeps of 1000
    and 2000 ms. *)
Theorem checkTikTokBio_type_error
    (username : jsstring) (code : value) (w : World) (v1 v2 v3 : value) :
  classify username (network w (fetched w)) = Ok v1 -> ToBoolean v1 = true ->
  classify username (network w (1 + fetched w)) = Ok v2 -> ToBoolean v2 = true ->
  classify username (network w (2 + fetched w)) = Ok v3 -> ToBoolean v3 = true ->
  notString code \/ (notString v1 /\ notString v2 /\ notString v3) ->
  checkTikTokBio toLowerCase username code w =
  (Throw ErrType,
   mkWorld (network w) (3 + fetched w)
     (trace w ++ [profileRequest username; Sleep 1000;
                  profileRequest username; Sleep 2000;
                  profileRequest username])
     (clock w)).
Proof.
  intros H1 T1 H2 T2 H3 T3 Hns.
  assert (N1 : notString v1 \/ notString code) by tauto.
  assert (N2 : notString v2 \/ notString code) by tauto.
  assert (N3 : notString v3 \/ notString code) by tauto.
  unfold checkTikTokBio. rewrite attemptNumbers_eq. cbn [forAttempts].
  rewrite (@attemptBody_type_error toLowerCase username code v1 1 w H1 T1 N1).
  change (N.eqb 1 maxRetries) with false. cbv iota.
  rewrite (@attemptBody_type_error toLowerCase username code v2 2 (sleep _ _))
    by assumption.
  change (N.eqb 2 maxRetries) with false. cbv iota.
  rewrite (@attemptBody_type_error toLowerCase username code v3 3 (sleep _ _))
    by assumption.
  change (N.eqb 3 maxRetries) with true. cbv iota.
  unfold sleep, fetchedOnce; cbn [network fetched trace clock].
  rewrite <- !app_assoc. reflexivity.
Qed.

End RetryProperties.

Lemma last_attempt_decides_witness :
  fst (checkTikTokBio asciiLowerCase (str "bob") (VString (str "abc123"))
         failsThenEmptyWorld) = Return (VBool false)
  /\ fst (checkTikTokBio asciiLowerCase (str "bob") (VString (str "abc123"))
            emptyThenFailsWorld) = Throw (ErrReject (str "fetch failed")).
Proof.
  destruct (last_attempt_decides asciiLowerCase (str "bob") (VString (str "abc123"))
              failsThenEmptyWorld) as [Hfalse _].
  destruct (last_attempt_decides asciiLowerCase (str "bob") (VString (str "abc123"))
              emptyThenFailsWorld) as [_ Hthrow].
  split.
  - rewrite (Hfalse (ErrReject (str "fetch failed")) (ErrReject (str "fetch failed"))
               VNull eq_refl eq_refl eq_refl eq_refl).
    reflexivity.
  - rewrite (Hthrow VNull VNull (ErrReject (str "fetch failed"))
               eq_refl eq_refl eq_refl eq_refl eq_refl).
    reflexivity.
Defined.

Lemma checkTikTokBio_type_error_witness :
  fst (checkTikTokBio asciiLowerCase (str "bob") (VString (str "42")) numberBioWorld)
  = Throw ErrType
  /\ fst (checkTikTokBio asciiLowerCase (str "bob")
            (VNumber (mkNumber false 123 0)) bioWorld)
     = Throw ErrType.
Proof.
  split.
  - rewrite (@checkTikTokBio_type_error asciiLowerCase (str "bob") (VString (str "42"))
               numberBioWorld
               (VNumber (mkNumber false 42 0)) (VNumber (mkNumber false 42 0))
               (VNumber (mkNumber false 42 0))
               eq_refl eq_refl eq_refl eq_refl eq_refl eq_refl).
    + reflexivity.
    + right. repeat split; intros s; discriminate.
  - rewrite (@checkTikTokBio_type_error asciiLowerCase (str "bob")
               (VNumber (mkNumber false 123 0)) bioWorld
               (VString (str "Verify: ABC123 #brand"))
               (VString (str "Verify: ABC123 #brand"))
               (VString (str "Verify: ABC123 #brand"))
               eq_refl eq_refl eq_refl eq_refl eq_refl eq_refl).
    + reflexivity.
    + left. intros s. discriminate.
Defined.

(* ================================================================== *)
(** * Further properties of [handler] *)
(* ================================================================== *)

Section HandlerProperties.

Variable toLowerCase : jsstring -> jsstring.

(** A POST request that passes the checks hands the cleaned username and
    the code to [checkTikTokBio] and answers by its outcome. *)
Lemma handler_post (req : Request) (w : World) (username : jsstring) (code : value) :
  reqMethod req = str "POST" ->
  getProp (reqBody req) (str "username") = Ok (VString username) ->
  getProp (reqBody req) (str "code") = Ok code ->
  username <> [] -> ToBoolean code = true -> templateThrows code = false ->
  handler toLowerCase req w =
  match checkTikTokBio toLowerCase (cleanUsernameOf username) code w with
  | (Return bioContainsCode, w') =>
      (mkReply corsHeaders 200
         (Verdict bioContainsCode (cleanUsernameOf username) code (clock w')), w')
  | (Normal, w') =>
      (mkReply corsHeaders 200
         (Verdict VUndefined (cleanUsernameOf username) code (clock w')), w')
  | (Throw e, w') => (mkReply corsHeaders 500 (InternalError e), w')
  end.
Proof.
  intros Hm Hu Hc Hne Tc Ht.
  unfold handler. rewrite Hm, Hu, Hc.
  change (jsstring_eqb (str "POST") (str "OPTIONS")) with false.
  change (jsstring_eqb (str "POST") (str "POST")) with true.
  cbv iota. cbn [negb].
  destruct username as [|c username]; [congruence|].
  cbn [ToBoolean negb orb]. rewrite Tc. cbn [negb cleanUsername]. rewrite Ht.
  reflexivity.
Qed.

(** X14. Every reply carries the three CORS headers and is of one of five
    kinds: 200 without a body to OPTIONS, 405 to another method that is not
    POST, 400 for missing fields, 500 with the error, or 200 with a verdict;
    in a verdict [found] is a boolean, the username is the cleaned one, the
    code is echoed as received and the timestamp is the clock's. *)
Theorem handler_reply_kinds (req : Request) (w : World) :
  replyHeaders (fst (handler toLowerCase req w)) = corsHeaders
  /\ ((reqMethod req = str "OPTIONS"
       /\ fst (handler toLowerCase req w) = mkReply corsHeaders 200 NoBody)
      \/ (reqMethod req <> str "POST"
          /\ fst (handler toLowerCase req w) = mkReply corsHeaders 405 MethodNotAllowed)
      \/ fst (handler toLowerCase req w) = mkReply corsHeaders 400 FieldsRequired
      \/ (exists e, fst (handler toLowerCase req w)
                    = mkReply corsHeaders 500 (InternalError e))
      \/ (exists b username code,
            getProp (reqBody req) (str "username") = Ok (VString username)
            /\ getProp (reqBody req) (str "code") = Ok code
            /\ fst (handler toLowerCase req w)
               = mkReply corsHeaders 200
                   (Verdict (VBool b) (cleanUsernameOf username) code (clock w)))).
Proof.
  assert (Hkinds :
    (reqMethod req = str "OPTIONS"
       /\ fst (handler toLowerCase req w) = mkReply corsHeaders 200 NoBody)
    \/ (reqMethod req <> str "POST"
        /\ fst (handler toLowerCase req w) = mkReply corsHeaders 405 MethodNotAllowed)
    \/ fst (handler toLowerCase req w) = mkReply corsHeaders 400 FieldsRequired
    \/ (exists e, fst (handler toLowerCase req w)
                  = mkReply corsHeaders 500 (InternalError e))
    \/ (exists b username code,
          getProp (reqBody req) (str "username") = Ok (VString username)
          /\ getProp (reqBody req) (str "code") = Ok code
          /\ fst (handler toLowerCase req w)
             = mkReply corsHeaders 200
                 (Verdict (VBool b) (cleanUsernameOf username) code (clock w)))).
  { destruct (jsstring_eqb (reqMethod req) (str "OPTIONS")) eqn:Eo.
    { left. split; [now apply jsstring_eqb_eq|]. unfold handler. now rewrite Eo. }
    destruct (jsstring_eqb (reqMethod req) (str "POST")) eqn:Ep.
    2:{ right. left. split.
        - intros H. apply jsstring_eqb_eq in H. congruence.
        - unfold handler. now rewrite Eo, Ep. }
    apply jsstring_eqb_eq in Ep.
    destruct (getProp (reqBody req) (str "username")) as [u|e] eqn:Hu.
    2:{ right. right. right. left. exists e. unfold handler.
        rewrite Eo, Ep, Hu. reflexivity. }
    destruct (getProp (reqBody req) (str "code")) as [c|e] eqn:Hc.
    2:{ right. right. right. left. exists e. unfold handler.
        rewrite Eo, Ep, Hu, Hc. reflexivity. }
    destruct (negb (ToBoolean u) || negb (ToBoolean c)) eqn:Hv.
    { right. right. left. unfold handler. rewrite Eo, Ep, Hu, Hc.
      change (jsstring_eqb (str "POST") (str "POST")) with true.
      cbv iota. cbn [negb]. now rewrite Hv. }
    apply orb_false_iff in Hv as [Tu Tc].
    apply negb_false_iff in Tu, Tc.
    destruct (cleanUsername u) as [clean|e] eqn:Hclean.
    2:{ right. right. right. left. exists e. unfold handler.
        rewrite Eo, Ep, Hu, Hc.
        change (jsstring_eqb (str "POST") (str "POST")) with true.
        cbv iota. cbn [negb]. rewrite Tu, Tc. cbn [negb orb]. now rewrite Hclean. }
    destruct (templateThrows c) eqn:Ht.
    { right. right. right. left. exists ErrType. unfold handler.
      rewrite Eo, Ep, Hu, Hc.
      change (jsstring_eqb (str "POST") (str "POST")) with true.
      cbv iota. cbn [negb]. rewrite Tu, Tc. cbn [negb orb].
      now rewrite Hclean, Ht. }
    destruct u; try discriminate. cbn [cleanUsername] in Hclean.
    injection Hclean as <-.
    assert (Hne : s <> []) by (intros ->; discriminate).
    rewrite (handler_post req w Ep Hu Hc Hne Tc Ht).
    destruct (checkTikTokBio_shape toLowerCase (cleanUsernameOf s) c w)
      as (evs & Hw & _ & Hres).
    destruct (checkTikTokBio toLowerCase (cleanUsernameOf s) c w) as [r w'].
    cbn [fst snd] in *. subst w'. cbn [clock].
    destruct Hres as [[b ->] | [e ->]]; cbn [fst].
    - right. right. right. right. exists b, s, c. auto.
    - right. right. right. left. now exists e. }
  split; [|exact Hkinds].
  destruct Hkinds as [[_ ->] | [[_ ->] | [-> | [[e ->] | (b & u & c & _ & _ & ->)]]]];
    reflexivity.
Qed.

(** X15. A POST request that cannot be read is answered 500 with a
    TypeError and makes no request: a body that is [null] or [undefined],
    a truthy username that is not a string, a code whose conversion to
    text throws. *)
Theorem handler_unreadable_request (req : Request) (w : World) :
  reqMethod req = str "POST" ->
  (reqBody req = VNull \/ reqBody req = VUndefined
   \/ (exists username code,
         getProp (reqBody req) (str "username") = Ok username
         /\ getProp (reqBody req) (str "code") = Ok code
         /\ ToBoolean username = true /\ ToBoolean code = true
         /\ (notString username \/ templateThrows code = true))) ->
  handler toLowerCase req w = (mkReply corsHeaders 500 (InternalError ErrType), w).
Proof.
  intros Hm Hbad. unfold handler. rewrite Hm.
  change (jsstring_eqb (str "POST") (str "OPTIONS")) with false.
  change (jsstring_eqb (str "POST") (str "POST")) with true.
  cbv iota. cbn [negb].
  destruct Hbad as [-> | [-> | (u & c & Hu & Hc & Tu & Tc & Hbad)]];
    [reflexivity | reflexivity |].
  rewrite Hu, Hc, Tu, Tc. cbn [negb orb].
  destruct Hbad as [Hns | Ht].
  - destruct u; try reflexivity. exfalso. now apply (Hns s).
  - destruct u; cbn [cleanUsername]; try reflexivity; now rewrite Ht.
Qed.

(** X16. A POST for a profile whose page yields a bio at the first request
    is answered 200 after that single request, with [found] the result of
    the test on that bio, the cleaned username and the code as received. *)
Theorem handler_found_at_first_request
    (req : Request) (w : World) (username code html bio : jsstring)
    (response : Response) :
  reqMethod req = str "POST" ->
  getProp (reqBody req) (str "username") = Ok (VString username) ->
  getProp (reqBody req) (str "code") = Ok (VString code) ->
  username <> [] -> code <> [] ->
  network w (fetched w) = Resolved response ->
  ok response = true ->
  text response = Ok html ->
  extractBioFromHtml html = Return (VString bio) ->
  handler toLowerCase req w =
  (mkReply corsHeaders 200
     (Verdict (VBool (codeFound toLowerCase bio code)) (cleanUsernameOf username)
        (VString code) (clock w)),
   fetchedOnce (cleanUsernameOf username) w).
Proof.
  intros Hm Hu Hc Hne Hcne Hnet Hok Htext Hbio.
  assert (Tc : ToBoolean (VString code) = true) by (destruct code; [congruence | reflexivity]).
  rewrite (handler_post req w Hm Hu Hc Hne Tc eq_refl).
  assert (Hclass : classify (cleanUsernameOf username) (network w (fetched w))
                   = Ok (VString bio)).
  { rewrite Hnet. unfold classify. now rewrite Hok, Htext, Hbio. }
  assert (Hbne : bio <> []).
  { destruct (extractBioFromHtml_null_or_truthy html) as (v & Hv & Hor).
    rewrite Hbio in Hv. injection Hv as <-.
    destruct Hor as [Hnull | T]; [discriminate|].
    destruct bio; [discriminate T | discriminate]. }
  unfold checkTikTokBio. rewrite attemptNumbers_eq. cbn [forAttempts].
  rewrite (@attemptBody_bio toLowerCase _ _ code 1 w Hclass Hbne).
  reflexivity.
Qed.

(** X17. A POST for a profile that answers 404 to every request is
    answered 500 with the not-found error for the cleaned username, after
    three requests. *)
Theorem handler_profile_not_found
    (req : Request) (w : World) (username : jsstring) (code : value)
    (r1 r2 r3 : Response) :
  reqMethod req = str "POST" ->
  getProp (reqBody req) (str "username") = Ok (VString username) ->
  getProp (reqBody req) (str "code") = Ok code ->
  username <> [] -> ToBoolean code = true -> templateThrows code = false ->
  network w (fetched w) = Resolved r1 -> status r1 = 404%N ->
  network w (1 + fetched w) = Resolved r2 -> status r2 = 404%N ->
  network w (2 + fetched w) = Resolved r3 -> status r3 = 404%N ->
  handler toLowerCase req w =
  (mkReply corsHeaders 500
     (InternalError
        (ErrError (str "TikTok user @" ++ cleanUsernameOf username ++ str " not found"))),
   mkWorld (network w) (3 + fetched w)
     (trace w ++ [profileRequest (cleanUsernameOf username); Sleep 1000;
                  profileRequest (cleanUsernameOf username); Sleep 2000;
                  profileRequest (cleanUsernameOf username)])
     (clock w)).
Proof.
  intros Hm Hu Hc Hne Tc Ht N1 S1 N2 S2 N3 S3.
  rewrite (handler_post req w Hm Hu Hc Hne Tc Ht).
  assert (Hclass : forall n r, network w n = Resolved r -> status r = 404%N ->
            classify (cleanUsernameOf username) (network w n)
            = Err (ErrError (str "TikTok user @" ++ cleanUsernameOf username
                             ++ str " not found"))).
  { intros n r Hn Hs. rewrite Hn. unfold classify, ok. rewrite Hs. reflexivity. }
  unfold checkTikTokBio. rewrite attemptNumbers_eq. cbn [forAttempts].
  rewrite (@attemptBody_error toLowerCase _ _ _ _ _ (Hclass _ _ N1 S1)).
  change (N.eqb 1 maxRetries) with false; cbv iota.
  rewrite (@attemptBody_error toLowerCase _ _ _ (sleep _ _) _)
    by exact (Hclass _ _ N2 S2).
  change (N.eqb 2 maxRetries) with false; cbv iota.
  rewrite (@attemptBody_error toLowerCase _ _ _ (sleep _ _) _)
    by exact (Hclass _ _ N3 S3).
  change (N.eqb 3 maxRetries) with true; cbv iota.
  unfold sleep, fetchedOnce; cbn [network fetched trace clock].
  rewrite <- !app_assoc. reflexivity.
Qed.

End HandlerProperties.

Lemma scrapeTikTokBio_returns_iff_witness :
  fst (scrapeTikTokBio (str "bob") loginWallWorld) = Ok VNull
  /\ (VNull = VNull \/ ToBoolean VNull = true).
Proof.
  assert (H : fst (scrapeTikTokBio (str "bob") loginWallWorld) = Ok VNull).
  { apply (proj1 (scrapeTikTokBio_returns_iff (str "bob") loginWallWorld VNull)).
    exists (mkResponse 200 (str "OK") (Ok (str "<html><body>Log in</body></html>"))),
           (str "<html><body>Log in</body></html>").
    split; [reflexivity|]. split; [reflexivity|]. split; [reflexivity|].
    vm_compute; reflexivity. }
  split; [exact H|].
  exact (proj2 (scrapeTikTokBio_returns_iff (str "bob") loginWallWorld VNull) H).
Defined.

Lemma handler_unreadable_request_witness :
  handler asciiLowerCase (mkRequest (str "POST") VUndefined) bioWorld
  = (mkReply corsHeaders 500 (InternalError ErrType), bioWorld)
  /\ handler asciiLowerCase
       (postRequest (VNumber (mkNumber false 42 0)) (VString (str "abc123"))) bioWorld
     = (mkReply corsHeaders 500 (InternalError ErrType), bioWorld)
  /\ handler asciiLowerCase
       (postRequest (VString (str "bob")) (VObject [(str "toString", VNull)])) bioWorld
     = (mkReply corsHeaders 500 (InternalError ErrType), bioWorld).
Proof.
  split; [|split].
  - apply handler_unreadable_request; [reflexivity|]. right; left; reflexivity.
  - apply handler_unreadable_request; [reflexivity|]. right; right.
    exists (VNumber (mkNumber false 42 0)), (VString (str "abc123")).
    split; [reflexivity|]. split; [reflexivity|]. split; [reflexivity|].
    split; [reflexivity|]. left. intros s; discriminate.
  - apply handler_unreadable_request; [reflexivity|]. right; right.
    exists (VString (str "bob")), (VObject [(str "toString", VNull)]).
    split; [reflexivity|]. split; [reflexivity|]. split; [reflexivity|].
    split; [reflexivity|]. right; reflexivity.
Defined.

Lemma handler_found_at_first_request_witness :
  handler asciiLowerCase
    (postRequest (VString (str "@Example.User ")) (VString (str "abc123"))) bioWorld
  = (mkReply corsHeaders 200
       (Verdict (VBool true) (str "Example.User") (VString (str "abc123"))
          (str "2024-01-01T00:00:00.000Z")),
     fetchedOnce (str "Example.User") bioWorld).
Proof.
  exact (@handler_found_at_first_request asciiLowerCase
           (postRequest (VString (str "@Example.User ")) (VString (str "abc123")))
           bioWorld (str "@Example.User ") (str "abc123")
           (metaTag (str "Verify: ABC123 #brand")) (str "Verify: ABC123 #brand")
           (mkResponse 200 (str "OK") (Ok (metaTag (str "Verify: ABC123 #brand"))))
           eq_refl eq_refl eq_refl
           ltac:(discriminate) ltac:(discriminate)
           eq_refl eq_refl eq_refl
           ltac:(vm_compute; reflexivity)).
Defined.

Lemma handler_profile_not_found_witness :
  handler asciiLowerCase
    (postRequest (VString (str "@bob")) (VString (str "abc123"))) notFoundWorld
  = (mkReply corsHeaders 500
       (InternalError (ErrError (str "TikTok user @bob not found"))),
     mkWorld (network notFoundWorld) 3
       [profileRequest (str "bob"); Sleep 1000;
        profileRequest (str "bob"); Sleep 2000;
        profileRequest (str "bob")]
       (clock notFoundWorld)).
Proof.
  exact (@handler_profile_not_found asciiLowerCase
           (postRequest (VString (str "@bob")) (VString (str "abc123")))
           notFoundWorld (str "@bob") (VString (str "abc123"))
           (mkResponse 404 (str "Not Found") (Ok []))
           (mkResponse 404 (str "Not Found") (Ok []))
           (mkResponse 404 (str "Not Found") (Ok []))
           eq_refl eq_refl eq_refl ltac:(discriminate) eq_refl eq_refl
           eq_refl eq_refl eq_refl eq_refl eq_refl eq_refl).
Defined.

(* ================================================================== *)
(** * Rejections and method dispatch *)
(* ================================================================== *)

(** X18. A request that is rejected, or a body that cannot be read after a
    success status, makes [scrapeTikTokBio] fail with that very cause,
    after the one request; the body of a response with another status is
    never read. *)
Theorem scrapeTikTokBio_passes_on_rejections (username : jsstring) (w : World) :
  snd (scrapeTikTokBio username w) = fetchedOnce username w
  /\ (forall cause, network w (fetched w) = Rejected cause ->
        fst (scrapeTikTokBio username w) = Err cause)
  /\ (forall response cause,
        network w (fetched w) = Resolved response ->
        ok response = true -> text response = Err cause ->
        fst (scrapeTikTokBio username w) = Err cause)
  /\ (forall response body,
        network w (fetched w) = Resolved response ->
        ok response = false ->
        fst (scrapeTikTokBio username w)
        = fst (scrapeTikTokBio username
                 (mkWorld (fun _ => Resolved (mkResponse (status response)
                                               (statusText response) body))
                    (fetched w) (trace w) (clock w)))).
Proof.
  unfold scrapeTikTokBio, fetch. cbn [fst snd network fetched].
  split; [reflexivity|]. split; [|split].
  - intros cause ->. reflexivity.
  - intros response cause -> Hok Ht. unfold classify. now rewrite Hok, Ht.
  - intros response body -> Hok. unfold classify.
    assert (Hok' : ok (mkResponse (status response) (statusText response) body) = false)
      by exact Hok.
    rewrite Hok, Hok'. reflexivity.
Qed.

Lemma scrapeTikTokBio_passes_on_rejections_witness :
  fst (scrapeTikTokBio (str "bob") flakyWorld) = Err (ErrReject (str "fetch failed"))
  /\ fst (scrapeTikTokBio (str "bob")
            (startWorld (fun _ => Resolved (mkResponse 200 (str "OK") (Err ErrType)))))
     = Err ErrType
  /\ fst (scrapeTikTokBio (str "bob") notFoundWorld)
     = fst (scrapeTikTokBio (str "bob")
              (mkWorld (fun _ => Resolved (mkResponse 404 (str "Not Found")
                                             (Ok (metaTag (str "Verify: ABC123 #brand")))))
                 0 [] (clock notFoundWorld))).
Proof.
  split; [|split].
  - apply (proj1 (proj2 (scrapeTikTokBio_passes_on_rejections (str "bob") flakyWorld))).
    reflexivity.
  - apply (proj1 (proj2 (proj2 (scrapeTikTokBio_passes_on_rejections (str "bob")
             (startWorld (fun _ => Resolved (mkResponse 200 (str "OK") (Err ErrType)))))))
             (mkResponse 200 (str "OK") (Err ErrType)));
      reflexivity.
  - apply (proj2 (proj2 (proj2 (scrapeTikTokBio_passes_on_rejections (str "bob")
             notFoundWorld)))
             (mkResponse 404 (str "Not Found") (Ok []))
             (Ok (metaTag (str "Verify: ABC123 #brand"))));
      reflexivity.
Defined.

Section MethodDispatch.

Variable toLowerCase : jsstring -> jsstring.

(** X19. The method is looked at before the body: an OPTIONS request is
    answered 200 without a body and any method other than OPTIONS and POST
    405, whatever the body holds, and neither makes a request. *)
Theorem handler_method_first (req : Request) (w : World) :
  (reqMethod req = str "OPTIONS" ->
   handler toLowerCase req w = (mkReply corsHeaders 200 NoBody, w))
  /\ (reqMethod req <> str "OPTIONS" -> reqMethod req <> str "POST" ->
      handler toLowerCase req w = (mkReply corsHeaders 405 MethodNotAllowed, w)).
Proof.
  split.
  - intros Hm. unfold handler. rewrite Hm. reflexivity.
  - intros Ho Hp. unfold handler.
    destruct (jsstring_eqb (reqMethod req) (str "OPTIONS")) eqn:Eo.
    { apply jsstring_eqb_eq in Eo. contradiction. }
    destruct (jsstring_eqb (reqMethod req) (str "POST")) eqn:Ep.
    { apply jsstring_eqb_eq in Ep. contradiction. }
    reflexivity.
Qed.

End MethodDispatch.

Lemma handler_method_first_witness :
  handler asciiLowerCase (mkRequest (str "OPTIONS") VUndefined) bioWorld
  = (mkReply corsHeaders 200 NoBody, bioWorld)
  /\ handler asciiLowerCase
       (mkRequest (str "GET")
          (VObject [(str "username", VString (str "bob"));
                    (str "code", VString (str "abc123"))])) bioWorld
     = (mkReply corsHeaders 405 MethodNotAllowed, bioWorld).
Proof.
  split.
  - apply (proj1 (handler_method_first asciiLowerCase
                    (mkRequest (str "OPTIONS") VUndefined) bioWorld)).
    reflexivity.
  - apply (proj2 (handler_method_first asciiLowerCase
                    (mkRequest (str "GET")
                       (VObject [(str "username", VString (str "bob"));
                                 (str "code", VString (str "abc123"))])) bioWorld));
      discriminate.
Defined.
